(** * FRA Atlas: claims aggregation and reporting

    A shallow embedding of the two JavaScript classes that carry the claims
    pipeline of the dashboard,

      - [Dashboard]    (src/js/components/dashboard.js), and
      - [FRAAtlasApp]  (src/js/app.js),

    together with the part of the JavaScript runtime they rely on
    (truthiness, [+], [String.prototype.toLowerCase], [includes],
    [parseInt], [Number.prototype.toFixed], number-to-string conversion,
    [Math.floor]).  Numbers are IEEE-754 binary64 values, taken from the
    standard library's executable specification [SpecFloat]. *)

From Stdlib Require Import ZArith List String Ascii Bool Lia.
From Stdlib Require Import QArith Qround Lqa.
From Stdlib Require Import SpecFloat.
From Stdlib Require Import DecimalString DecimalPos DecimalN.
Import ListNotations.

Local Open Scope string_scope.
Local Open Scope Z_scope.

(** ** The JavaScript runtime *)

Module JS.

(** *** Strings

    A string is the sequence of 8-bit characters of its UTF-8 encoding;
    the labels and keywords the program deals with are ASCII, and
    characters outside A-Z are their own lower case. *)

Definition lower (c : ascii) : ascii :=
  let n := nat_of_ascii c in
  if ((65 <=? n) && (n <=? 90))%nat then ascii_of_nat (n + 32) else c.

Fixpoint toLowerCase (s : string) : string :=
  match s with
  | EmptyString => EmptyString
  | String c s' => String (lower c) (toLowerCase s')
  end.

Fixpoint startsWith (s p : string) {struct p} : bool :=
  match p, s with
  | EmptyString, _ => true
  | String _ _, EmptyString => false
  | String a p', String b s' => Ascii.eqb a b && startsWith s' p'
  end.

(** [s.includes(p)]: [p] occurs in [s] at some position. *)
Fixpoint includes (s p : string) : bool :=
  startsWith s p ||
  match s with
  | EmptyString => false
  | String _ s' => includes s' p
  end.

Fixpoint repeat (c : ascii) (n : nat) : string :=
  match n with
  | O => EmptyString
  | S n' => String c (repeat c n')
  end.

Fixpoint take (n : nat) (s : string) : string :=
  match n, s with
  | S n', String c s' => String c (take n' s')
  | _, _ => EmptyString
  end.

Fixpoint drop (n : nat) (s : string) : string :=
  match n, s with
  | S n', String _ s' => drop n' s'
  | _, _ => s
  end.

(** Decimal numeral of a non-negative integer. *)
Definition digits (z : Z) : string :=
  NilZero.string_of_uint (N.to_uint (Z.to_N z)).

(** The character of the decimal digit [r], [0 <= r < 10]. *)
Definition digit_of (r : Z) : ascii := ascii_of_nat (48 + Z.to_nat r).

(** *** Numbers: IEEE-754 binary64 *)

Definition number := spec_float.
Definition prec : Z := 53.
Definition emax : Z := 1024.

Definition add : number -> number -> number := SFadd prec emax.
Definition mul : number -> number -> number := SFmul prec emax.
Definition div : number -> number -> number := SFdiv prec emax.

(** The number nearest to [m * 2^e], and the number nearest to an integer. *)
Definition dyadic (m e : Z) : number := binary_normalize prec emax m e false.
Definition of_Z (z : Z) : number := dyadic z 0.

Definition NaN : number := S754_nan.
Definition Infinity : number := S754_infinity false.

Definition is_nan (x : number) : bool :=
  match x with S754_nan => true | _ => false end.
Definition is_zero (x : number) : bool :=
  match x with S754_zero _ => true | _ => false end.

(** [shifted k x y]: the rounding record [y] is [x] after [k] one-bit shifts
    to the right, as far as the mantissa and the round bit tell. *)
Definition shifted (k : Z) (x y : shr_record) : Prop :=
  shr_m y = shr_m x / 2 ^ k /\ shr_r y = Z.odd (shr_m x / 2 ^ (k - 1)).

(** Exact rational arithmetic, used by the conversions to text. *)
Definition pow2 (e : Z) : Q :=
  if 0 <=? e then inject_Z (2 ^ e) else Qinv (inject_Z (2 ^ (- e))).
Definition pow10 (e : Z) : Q :=
  if 0 <=? e then inject_Z (10 ^ e) else Qinv (inject_Z (10 ^ (- e))).
Definition magnitude (m : positive) (e : Z) : Q :=
  (inject_Z (Zpos m) * pow2 e)%Q.
Definition Qlt_bool (a b : Q) : bool := negb (Qle_bool b a).

(** [decimal_exponent v] is the [n] with [10^(n-1) <= v < 10^n], [0 < v]. *)
Fixpoint exponent_below (fuel : nat) (v : Q) (n : Z) : Z :=
  match fuel with
  | O => n
  | S fuel' =>
      if Qle_bool (pow10 (n - 1)) v then n else exponent_below fuel' v (n - 1)
  end.
Definition decimal_exponent (v : Q) : Z :=
  if Qle_bool 1%Q v
  then Z.of_nat (String.length (digits (Qfloor v)))
  else exponent_below 400 v 0.

(** Number::toString, the digits: the least [k] and the [k]-digit integer
    [s] such that [s * 10^(n-k)] converts back to the number [m * 2^e]
    (it lies in the number's rounding interval); among two such [s] the
    one nearer to the number, the even one on a tie. *)
Section Shortest.
Variables (m : positive) (e : Z).
Let v : Q := magnitude m e.
Let low : Q :=
  (v - (if (Zpos m =? 2 ^ (prec - 1)) && (emin prec emax <? e)
        then pow2 (e - 2) else pow2 (e - 1)))%Q.
Let high : Q := (v + pow2 (e - 1))%Q.

Definition converts_back (c : Q) : bool :=
  if Z.even (Zpos m)
  then Qle_bool low c && Qle_bool c high
  else Qlt_bool low c && Qlt_bool c high.

Fixpoint shortest (fuel : nat) (n k : Z) : Z * Z :=
  let scale := pow10 (n - k) in
  let s := Qfloor (v / scale)%Q in
  let c0 := (inject_Z s * scale)%Q in
  let c1 := (inject_Z (s + 1) * scale)%Q in
  let pick (t : Z) := if t =? 10 ^ k then (10 ^ (k - 1), n + 1) else (t, n) in
  match fuel with
  | O => pick s
  | S fuel' =>
      match converts_back c0, converts_back c1 with
      | true, true =>
          match Qcompare (v - c0)%Q (c1 - v)%Q with
          | Lt => pick s
          | Gt => pick (s + 1)
          | Eq => pick (if Z.even s then s else s + 1)
          end
      | true, false => pick s
      | false, true => pick (s + 1)
      | false, false => shortest fuel' n (k + 1)
      end
  end.
End Shortest.

(** Number::toString, the layout of [k] digits [ds] with decimal exponent [n]. *)
Definition layout (ds : string) (n : Z) : string :=
  let k := Z.of_nat (String.length ds) in
  if (k <=? n) && (n <=? 21) then
    ds ++ repeat "0" (Z.to_nat (n - k))
  else if (0 <? n) && (n <=? 21) then
    take (Z.to_nat n) ds ++ "." ++ drop (Z.to_nat n) ds
  else if (-6 <? n) && (n <=? 0) then
    "0." ++ repeat "0" (Z.to_nat (- n)) ++ ds
  else
    let ex := (if n - 1 <? 0 then "-" else "+") ++ digits (Z.abs (n - 1)) in
    if k =? 1 then ds ++ "e" ++ ex
    else take 1 ds ++ "." ++ drop 1 ds ++ "e" ++ ex.

Definition number_to_string (x : number) : string :=
  match x with
  | S754_nan => "NaN"
  | S754_zero _ => "0"
  | S754_infinity s => (if s then "-" else "") ++ "Infinity"
  | S754_finite s m e =>
      let '(d, n) := shortest m e 17 (decimal_exponent (magnitude m e)) 1 in
      (if s then "-" else "") ++ layout (digits d) n
  end.

(** [x.toFixed(1)] for a number [x]. *)
Definition toFixed1 (x : number) : string :=
  match x with
  | S754_finite s m e =>
      let v := magnitude m e in
      if Qle_bool (pow10 21) v then number_to_string x
      else
        let n := Qfloor (v * 10 + (1 # 2))%Q in
        let ds := digits n in
        let ds := if (String.length ds <=? 1)%nat then "0" ++ ds else ds in
        let k := String.length ds in
        (if s then "-" else "") ++ take (k - 1) ds ++ "." ++ drop (k - 1) ds
  | S754_zero _ => "0.0"
  | _ => number_to_string x
  end.

(** [Math.floor]. *)
Definition floor (x : number) : number :=
  match x with
  | S754_finite s m e =>
      if 0 <=? e then x
      else
        let q := Zpos m / 2 ^ (- e) in
        if s then of_Z (- (if Zpos m mod 2 ^ (- e) =? 0 then q else q + 1))
        else if q =? 0 then S754_zero false
        else of_Z q
  | _ => x
  end.

(** [parseInt(s)] with no radix argument. It skips leading white space and
    line terminators: U+0009 to U+000D and U+0020, which are one character
    of the string each, and, in two or three characters of its UTF-8
    encoding, U+00A0, U+1680, U+2000 to U+200A, U+2028, U+2029, U+202F,
    U+205F, U+3000 and U+FEFF. *)
Definition isWhite (c : ascii) : bool :=
  let n := nat_of_ascii c in
  ((9 <=? n) && (n <=? 13) || (n =? 32))%nat.

Definition isWhite2 (c1 c2 : ascii) : bool :=
  ((nat_of_ascii c1 =? 194) && (nat_of_ascii c2 =? 160))%nat.

Definition isWhite3 (c1 c2 c3 : ascii) : bool :=
  let n1 := nat_of_ascii c1 in
  let n2 := nat_of_ascii c2 in
  let n3 := nat_of_ascii c3 in
  ((n1 =? 225) && (n2 =? 154) && (n3 =? 128)
   || (n1 =? 226) && (n2 =? 128)
      && ((128 <=? n3) && (n3 <=? 138) || (n3 =? 168) || (n3 =? 169) || (n3 =? 175))
   || (n1 =? 226) && (n2 =? 129) && (n3 =? 159)
   || (n1 =? 227) && (n2 =? 128) && (n3 =? 128)
   || (n1 =? 239) && (n2 =? 187) && (n3 =? 191))%nat.

(** The first character of an encoding that takes more than one. *)
Definition leads (c : ascii) : bool := (192 <=? nat_of_ascii c)%nat.

Fixpoint trimStart (s : string) : string :=
  match s with
  | String c1 s1 =>
      if isWhite c1 then trimStart s1
      else if leads c1 then
        match s1 with
        | String c2 s2 =>
            if isWhite2 c1 c2 then trimStart s2
            else
              match s2 with
              | String c3 s3 => if isWhite3 c1 c2 c3 then trimStart s3 else s
              | EmptyString => s
              end
        | EmptyString => s
        end
      else s
  | EmptyString => s
  end.

Definition digit_value (c : ascii) : option Z :=
  let n := Z.of_nat (nat_of_ascii c) in
  if (48 <=? n) && (n <=? 57) then Some (n - 48)
  else if (97 <=? n) && (n <=? 122) then Some (n - 87)
  else if (65 <=? n) && (n <=? 90) then Some (n - 55)
  else None.

Fixpoint parse_digits (R : Z) (s : string) (acc : option Z) : option Z :=
  match s with
  | String c s' =>
      match digit_value c with
      | Some d =>
          if d <? R
          then parse_digits R s' (Some (match acc with Some a => a | None => 0 end * R + d))
          else acc
      | None => acc
      end
  | EmptyString => acc
  end.

Definition parseInt (s : string) : number :=
  let s := trimStart s in
  let '(neg, s) :=
    match s with
    | String "-" s' => (true, s')
    | String "+" s' => (false, s')
    | _ => (false, s)
    end in
  let '(R, s) :=
    if startsWith s "0x" || startsWith s "0X" then (16, drop 2 s) else (10, s) in
  match parse_digits R s None with
  | None => NaN
  | Some 0 => S754_zero neg
  | Some z => of_Z (if neg then - z else z)
  end.

(** *** Values *)

(** What a member of a JSON document, or a local that [+=] has worked on,
    can hold. [Obj text] is an array or an object; [text] is the string it
    converts to (the elements joined by commas for an array,
    [[object Object]] for an object). *)
Inductive value : Type :=
| Undefined
| Null
| Bool (b : bool)
| Num (x : number)
| Str (s : string)
| Obj (text : string).

Definition truthy (v : value) : bool :=
  match v with
  | Undefined | Null => false
  | Bool b => b
  | Num x => negb (is_nan x || is_zero x)
  | Str s => negb (s =? "")%string
  | Obj _ => true
  end.

(** [a || b] *)
Definition or (a b : value) : value := if truthy a then a else b.

Definition toString (v : value) : string :=
  match v with
  | Undefined => "undefined"
  | Null => "null"
  | Bool b => if b then "true" else "false"
  | Num x => number_to_string x
  | Str s => s
  | Obj text => text
  end.

(** ToNumber on the operands of [+] that are neither a string nor converted
    to one: an array or object operand is first converted to its string. *)
Definition numeric (v : value) : option number :=
  match v with
  | Undefined => Some NaN
  | Null => Some (S754_zero false)
  | Bool b => Some (if b then of_Z 1 else S754_zero false)
  | Num x => Some x
  | Str _ => None
  | Obj _ => None
  end.

(** [a + b]: concatenation as soon as one operand is a string, or an array
    or object. *)
Definition plus (a b : value) : value :=
  match numeric a, numeric b with
  | Some x, Some y => Num (add x y)
  | _, _ => Str (toString a ++ toString b)
  end.

(** *** Completions: a statement finishes normally or throws. *)

(** What is thrown: the TypeError of the runtime, or any other value, which
    only code outside these files throws. *)
Inductive error : Type :=
| TypeError
| Thrown (what : string).

Inductive completion (A : Type) : Type :=
| Normal (a : A)
| Throw (e : error).
Arguments Normal {A} a.
Arguments Throw {A} e.

(** [v.toLowerCase()] and [v.toFixed(1)]: the method exists on strings,
    respectively numbers, only; calling what is not there is a TypeError. *)
Definition call_toLowerCase (v : value) : completion string :=
  match v with
  | Str s => Normal (toLowerCase s)
  | _ => Throw TypeError
  end.

Definition call_toFixed1 (v : value) : completion string :=
  match v with
  | Num x => Normal (toFixed1 x)
  | _ => Throw TypeError
  end.

End JS.

(** ** The page: what the two classes read and write *)

(** A claim record as the loader delivers it: a GeoJSON feature. Of the
    members of its [properties] object the dashboard reads these three, each
    [Undefined] when the member is missing. [properties] is [None] when
    there is no object to read them from: the feature has [null] there,
    which GeoJSON allows, or nothing at all, or is [null] itself. *)
Record Properties : Type := {
  status : JS.value;
  claimant_families : JS.value;
  area_hectares : JS.value
}.

Record Feature : Type := { properties : option Properties }.

(** A reading of the clock, [new Date()], through the renderings used. *)
Record Date : Type := {
  toLocaleString : string;
  toLocaleTimeString : string
}.

Module Counts.
Record t : Type := { approved : nat; pending : nat; review : nat; rejected : nat }.
End Counts.

(** The dashboard's elements as [findDashboardElements] found them: [None]
    for an element that is not in the document, otherwise its text
    ([textContent]; [innerHTML] for the coverage paragraph, which holds the
    text last assigned to it: how a browser writes markup back when
    [innerHTML] is read again is not part of the model). *)
Module Elements.
Record t : Type := {
  approved : option string;
  pending : option string;
  review : option string;
  rejected : option string;
  lastUpdate : option string;
  coverage : option string
}.
End Elements.

Record State : Type := {
  elements : Elements.t;
  console : list string;
  loadedData : list Feature
}.

(** Statements run in a state-and-exception monad over [State]: a thrown
    error keeps the writes made before it. *)
Definition M (A : Type) : Type := State -> JS.completion A * State.

Definition ret {A : Type} (a : A) : M A := fun s => (JS.Normal a, s).

Definition bind {A B : Type} (m : M A) (k : A -> M B) : M B :=
  fun s =>
    match m s with
    | (JS.Normal a, s') => k a s'
    | (JS.Throw e, s') => (JS.Throw e, s')
    end.

Definition lift {A : Type} (c : JS.completion A) : M A := fun s => (c, s).

Definition modify (f : State -> State) : M unit := fun s => (JS.Normal tt, f s).

Definition reads {A : Type} (f : State -> A) : M A := fun s => (JS.Normal (f s), s).

Notation "x <- m ;; k" := (bind m (fun x => k))
  (at level 61, m at next level, right associativity).
Notation "m ;; k" := (bind m (fun _ => k))
  (at level 61, right associativity).

Definition set_elements (f : Elements.t -> Elements.t) : M unit :=
  modify (fun s => {| elements := f (elements s);
                      console := console s;
                      loadedData := loadedData s |}).

(** [console.log(msg)] *)
Definition log (msg : string) : M unit :=
  modify (fun s => {| elements := elements s;
                      console := console s ++ [msg];
                      loadedData := loadedData s |}).

Definition set_loadedData (d : list Feature) : M unit :=
  modify (fun s => {| elements := elements s;
                      console := console s;
                      loadedData := d |}).

(** ** [class Dashboard] (src/js/components/dashboard.js) *)

Module Dashboard.
Import JS.

Definition defaultCounts : Counts.t :=
  {| Counts.approved := 234; Counts.pending := 156;
     Counts.review := 43; Counts.rejected := 12 |}.

(** The locals of [updateFromData]: [counts], [totalFamilies], [totalArea].
    The counters are whole numbers below the array-length limit, where
    [++] is exact; the two totals are whatever [+=] makes of them. *)
Record Totals : Type := {
  counts : Counts.t;
  totalFamilies : value;
  totalArea : value
}.

Definition initial : Totals :=
  {| counts := {| Counts.approved := 0; Counts.pending := 0;
                  Counts.review := 0; Counts.rejected := 0 |};
     totalFamilies := Num (S754_zero false);
     totalArea := Num (S754_zero false) |}.

(** The body of the [forEach] callback, for one feature. Where there is no
    properties object, reading [props.status] is a TypeError. *)
Definition visit (acc : Totals) (feature : Feature) : completion Totals :=
  match properties feature with
  | None => Throw TypeError
  | Some props =>
  match call_toLowerCase (or (status props) (Str "")) with
  | Throw e => Throw e
  | Normal status =>
      let families := or (claimant_families props) (Num (S754_zero false)) in
      let area := or (area_hectares props) (Num (S754_zero false)) in
      let totalFamilies := plus (totalFamilies acc) families in
      let totalArea := plus (totalArea acc) area in
      let c := counts acc in
      let counts :=
        if includes status "approved" then
          {| Counts.approved := S (Counts.approved c); Counts.pending := Counts.pending c;
             Counts.review := Counts.review c; Counts.rejected := Counts.rejected c |}
        else if includes status "pending" then
          {| Counts.approved := Counts.approved c; Counts.pending := S (Counts.pending c);
             Counts.review := Counts.review c; Counts.rejected := Counts.rejected c |}
        else if includes status "review" then
          {| Counts.approved := Counts.approved c; Counts.pending := Counts.pending c;
             Counts.review := S (Counts.review c); Counts.rejected := Counts.rejected c |}
        else if includes status "reject" then
          {| Counts.approved := Counts.approved c; Counts.pending := Counts.pending c;
             Counts.review := Counts.review c; Counts.rejected := S (Counts.rejected c) |}
        else c in
      Normal {| counts := counts; totalFamilies := totalFamilies; totalArea := totalArea |}
  end
  end.

(** [features.forEach(...)]: the features in order; a throw ends the loop. *)
Fixpoint forEach (features : list Feature) (acc : Totals) : completion Totals :=
  match features with
  | [] => Normal acc
  | feature :: rest =>
      match visit acc feature with
      | Normal acc' => forEach rest acc'
      | Throw e => Throw e
      end
  end.

Definition write (text : string) (element : option string) : option string :=
  match element with
  | Some _ => Some text
  | None => None
  end.

Definition updateCountElements (counts : Counts.t) : M unit :=
  set_elements (fun e =>
    {| Elements.approved := write (digits (Z.of_nat (Counts.approved counts))) (Elements.approved e);
       Elements.pending := write (digits (Z.of_nat (Counts.pending counts))) (Elements.pending e);
       Elements.review := write (digits (Z.of_nat (Counts.review counts))) (Elements.review e);
       Elements.rejected := write (digits (Z.of_nat (Counts.rejected counts))) (Elements.rejected e);
       Elements.lastUpdate := Elements.lastUpdate e;
       Elements.coverage := Elements.coverage e |}).

Definition updateLastUpdate (now : Date) : M unit :=
  set_elements (fun e =>
    {| Elements.approved := Elements.approved e;
       Elements.pending := Elements.pending e;
       Elements.review := Elements.review e;
       Elements.rejected := Elements.rejected e;
       Elements.lastUpdate := write ("Updated " ++ toLocaleTimeString now) (Elements.lastUpdate e);
       Elements.coverage := Elements.coverage e |}).

(** [text.replace(/Coverage: \d+ States.*$/, by)]: the leftmost place where
    the pattern matches; the match then runs to the end of the text, which
    must hold no line terminator from there on. *)
Definition isDigit (c : ascii) : bool :=
  let n := nat_of_ascii c in ((48 <=? n) && (n <=? 57))%nat.

Fixpoint skip_digits (s : string) : string :=
  match s with
  | String c s' => if isDigit c then skip_digits s' else s
  | EmptyString => s
  end.

Definition line_separator : string :=
  String (ascii_of_nat 226) (String (ascii_of_nat 128) (String (ascii_of_nat 168) "")).
Definition paragraph_separator : string :=
  String (ascii_of_nat 226) (String (ascii_of_nat 128) (String (ascii_of_nat 169) "")).

Definition one_line (s : string) : bool :=
  negb (includes s (String (ascii_of_nat 10) "") ||
        includes s (String (ascii_of_nat 13) "") ||
        includes s line_separator ||
        includes s paragraph_separator).

Definition coverage_at (s : string) : bool :=
  startsWith s "Coverage: " &&
  let r := drop 10 s in
  match r with
  | String c _ => isDigit c
  | EmptyString => false
  end &&
  let r' := skip_digits r in
  startsWith r' " States" && one_line (drop 7 r').

Fixpoint replace_coverage (s by_ : string) : string :=
  if coverage_at s then by_
  else match s with
       | String c s' => String c (replace_coverage s' by_)
       | EmptyString => EmptyString
       end.

Definition updateCoverageInfo (claimCount : nat) : M unit :=
  set_elements (fun e =>
    {| Elements.approved := Elements.approved e;
       Elements.pending := Elements.pending e;
       Elements.review := Elements.review e;
       Elements.rejected := Elements.rejected e;
       Elements.lastUpdate := Elements.lastUpdate e;
       Elements.coverage :=
         match Elements.coverage e with
         | Some currentText =>
             if includes currentText "Coverage:" then
               Some (replace_coverage currentText
                       ("Coverage: 4 States | " ++ digits (Z.of_nat claimCount) ++ " Active Claims"))
             else Some currentText
         | None => None
         end |}).

Definition updateFromData (now : Date) (features : list Feature) : M unit :=
  totals <- lift (forEach features initial) ;;
  updateCountElements (counts totals) ;;
  updateLastUpdate now ;;
  updateCoverageInfo (List.length features) ;;
  hectares <- lift (call_toFixed1 (totalArea totals)) ;;
  log ("📊 Dashboard updated: " ++ digits (Z.of_nat (List.length features)) ++ " claims, "
       ++ toString (totalFamilies totals) ++ " families, " ++ hectares ++ " hectares").

Definition resetToDefaults (now : Date) : M unit :=
  updateCountElements defaultCounts ;;
  updateLastUpdate now ;;
  log "📊 Dashboard reset to default values".

(** [element?.textContent || '0'] *)
Definition text_or_zero (element : option string) : string :=
  match element with
  | Some t => if (t =? "")%string then "0" else t
  | None => "0"
  end.

Module Stats.
Record t : Type := { approved : number; pending : number; review : number; rejected : number }.
End Stats.

Definition getCurrentStats : M Stats.t :=
  reads (fun s =>
    let e := elements s in
    {| Stats.approved := parseInt (text_or_zero (Elements.approved e));
       Stats.pending := parseInt (text_or_zero (Elements.pending e));
       Stats.review := parseInt (text_or_zero (Elements.review e));
       Stats.rejected := parseInt (text_or_zero (Elements.rejected e)) |}).

End Dashboard.

(** ** [class FRAAtlasApp] (src/js/app.js) *)

Module ReportData.
Record t : Type := {
  totalClaims : JS.number;
  approved : JS.number;
  pending : JS.number;
  review : JS.number;
  rejected : JS.number;
  deforestationAlerts : JS.number;
  highRiskAreas : JS.number;
  ndviViolations : JS.number
}.
End ReportData.

Module FRAAtlasApp.
Import JS.

(** [loadMultiStateData], from the point where [mapManager.loadStateData]
    has delivered [loaded], the features of the state files that loaded. *)
Definition loadMultiStateData (now : Date) (loaded : list Feature) : M unit :=
  set_loadedData loaded ;;
  data <- reads loadedData ;;
  if (0 <? List.length data)%nat
  then Dashboard.updateFromData now data
  else ret tt.

(** [Math.floor(Math.random() * n) + k], [r] being what [Math.random()] returned. *)
Definition random_figure (r : number) (n k : Z) : number :=
  add (floor (mul r (of_Z n))) (of_Z k).

(** [generateReportData]: [counts] holds the texts of the elements that
    [document.querySelectorAll('.stat-number')] returns, in document order;
    [r1], [r2], [r3] are the three values [Math.random()] returns, in the
    order of the calls. *)
Definition count_text (counts : list string) (i : nat) : string :=
  Dashboard.text_or_zero (nth_error counts i).

Definition generateReportData (counts : list string) (r1 r2 r3 : number) : ReportData.t :=
  {| ReportData.totalClaims :=
       add (add (add (parseInt (count_text counts 0)) (parseInt (count_text counts 1)))
                (parseInt (count_text counts 2)))
           (parseInt (count_text counts 3));
     ReportData.approved := parseInt (count_text counts 0);
     ReportData.pending := parseInt (count_text counts 1);
     ReportData.review := parseInt (count_text counts 2);
     ReportData.rejected := parseInt (count_text counts 3);
     ReportData.deforestationAlerts := random_figure r1 8 3;
     ReportData.highRiskAreas := random_figure r2 5 2;
     ReportData.ndviViolations := random_figure r3 12 5 |}.

(** [createReportContent]: the template literal, piece by piece; [now] is
    the [new Date()] of its second line. *)
Definition createReportContent (now : Date) (reportData : ReportData.t) : string :=
  "
FRA ATLAS DECISION SUPPORT SYSTEM - COMPREHENSIVE REPORT
Generated on: "
  ++ toLocaleString now
  ++ "

=== EXECUTIVE SUMMARY ===
Total FRA Claims Monitored: "
  ++ number_to_string (ReportData.totalClaims reportData)
  ++ "
States Covered: Odisha, Madhya Pradesh, Tripura, Telangana
Monitoring Period: January 2025 - September 2025

=== CLAIM STATUS DISTRIBUTION ===
• Approved Claims: "
  ++ number_to_string (ReportData.approved reportData)
  ++ "
• Pending Review: "
  ++ number_to_string (ReportData.pending reportData)
  ++ "  
• Under Review: "
  ++ number_to_string (ReportData.review reportData)
  ++ "
• Rejected Claims: "
  ++ number_to_string (ReportData.rejected reportData)
  ++ "

=== ENVIRONMENTAL ALERTS ===
• Deforestation Detected: "
  ++ number_to_string (ReportData.deforestationAlerts reportData)
  ++ " locations
• High-risk Areas: "
  ++ number_to_string (ReportData.highRiskAreas reportData)
  ++ "
• NDVI Threshold Violations: "
  ++ number_to_string (ReportData.ndviViolations reportData)
  ++ "

=== COMMUNITY IMPACT ===
• Total Families Protected: 8,542
• Forest Area Secured: 24,156 hectares
• Average Claim Size: "
  ++ toFixed1 (div (of_Z 24156) (ReportData.totalClaims reportData))
  ++ " hectares

=== TECHNICAL SPECIFICATIONS ===
• Satellite Data Source: Sentinel-2 (10m resolution)
• NDVI Calculation: Band 8 (NIR) and Band 4 (Red)
• Deforestation Threshold: NDVI < 0.3
• Update Frequency: Bi-weekly

=== RECOMMENDATIONS ===
1. Prioritize review of "
  ++ number_to_string (ReportData.pending reportData)
  ++ " pending claims
2. Investigate "
  ++ number_to_string (ReportData.deforestationAlerts reportData)
  ++ " deforestation alerts
3. Deploy ground verification teams to high-risk areas
4. Strengthen community-based monitoring programs

Report generated by FRA Atlas DSS v1.0
For SIH 2025 - Problem Statement SIH12508
Team: Green Guardians
        ".

End FRAAtlasApp.

(** ** The specification's vocabulary *)

Module Spec.
Import JS.

Inductive Category : Type := Approved | Pending | UnderReview | Rejected.

(** The fixed order in which the keywords are tried. *)
Definition priority : list (string * Category) :=
  [("approved", Approved); ("pending", Pending);
   ("review", UnderReview); ("reject", Rejected)].

(** Classification of a status label: lower-case it, then the first keyword
    of [priority] that occurs in it decides; [None] is Unclassified. *)
Definition classify (label : string) : option Category :=
  option_map snd
    (find (fun entry => includes (toLowerCase label) (fst entry)) priority).

(** The three members as the specification reads a record; a record with
    no properties object has none of them. *)
Definition fields (record : Feature) : Properties :=
  match properties record with
  | Some props => props
  | None => {| status := Undefined; claimant_families := Undefined;
               area_hectares := Undefined |}
  end.

Definition has_properties (record : Feature) : bool :=
  match properties record with
  | Some _ => true
  | None => false
  end.

(** The status label of a record; a record that has none has the empty label. *)
Definition label (record : Feature) : string :=
  match status (fields record) with
  | Str s => s
  | _ => ""
  end.

(** A record, with its properties object, whose status is a text or is
    absent (any falsy value). *)
Definition labelled (record : Feature) : bool :=
  has_properties record &&
  match status (fields record) with
  | Str _ => true
  | v => negb (truthy v)
  end.

Definition unclassified (record : Feature) : bool :=
  match classify (label record) with
  | None => true
  | Some _ => false
  end.

Definition unclassifiedCount (batch : list Feature) : nat :=
  List.length (filter unclassified batch).

(** One more record in the bucket of its category, none for Unclassified. *)
Definition tallied (c : option Category) (counts : Counts.t) : Counts.t :=
  match c with
  | Some Approved =>
      {| Counts.approved := S (Counts.approved counts); Counts.pending := Counts.pending counts;
         Counts.review := Counts.review counts; Counts.rejected := Counts.rejected counts |}
  | Some Pending =>
      {| Counts.approved := Counts.approved counts; Counts.pending := S (Counts.pending counts);
         Counts.review := Counts.review counts; Counts.rejected := Counts.rejected counts |}
  | Some UnderReview =>
      {| Counts.approved := Counts.approved counts; Counts.pending := Counts.pending counts;
         Counts.review := S (Counts.review counts); Counts.rejected := Counts.rejected counts |}
  | Some Rejected =>
      {| Counts.approved := Counts.approved counts; Counts.pending := Counts.pending counts;
         Counts.review := Counts.review counts; Counts.rejected := S (Counts.rejected counts) |}
  | None => counts
  end.

(** The records counted in the four visible buckets. *)
Definition counted (c : Counts.t) : nat :=
  (Counts.approved c + Counts.pending c + Counts.review c + Counts.rejected c)%nat.

(** [any_case t s]: [s] is [t] up to the case of its letters. *)
Definition upper (c : ascii) : ascii :=
  let n := nat_of_ascii c in
  if ((97 <=? n) && (n <=? 122))%nat then ascii_of_nat (n - 32) else c.

Fixpoint any_case (t s : string) : Prop :=
  match t, s with
  | EmptyString, EmptyString => True
  | String a t', String b s' => (b = a \/ b = upper a) /\ any_case t' s'
  | _, _ => False
  end.

(** The sum of a column of numbers, accumulated from 0 in batch order. *)
Definition total (column : list number) : number :=
  fold_left add column (S754_zero false).

(** A numeric field as the specification reads it: a number stands for
    itself, anything else (missing, not a number) for 0. *)
Definition number_or_zero (v : value) : number :=
  match v with
  | Num x => if is_nan x then S754_zero false else x
  | _ => S754_zero false
  end.

(** A numeric field as [v || 0] reads it: every falsy value, among them
    NaN and the zero of either sign, stands for 0. *)
Definition falsy_as_zero (v : value) : number :=
  match v with
  | Num x => if is_nan x || is_zero x then S754_zero false else x
  | _ => S754_zero false
  end.

(** A field that is a number, or is falsy. *)
Definition number_or_falsy (v : value) : bool :=
  match v with
  | Num _ => true
  | _ => negb (truthy v)
  end.

Definition well_formed (record : Feature) : bool :=
  labelled record &&
  number_or_falsy (claimant_families (fields record)) &&
  number_or_falsy (area_hectares (fields record)).

(** The four-record scenario of the specification: 1.5, 2.25 and 0.75 are
    the dyadic numbers 3/2, 9/4 and 3/4. *)
Definition record (s : string) (families area : number) : Feature :=
  {| properties := Some {| status := Str s;
                           claimant_families := Num families;
                           area_hectares := Num area |} |}.

Definition scenario : list Feature :=
  [ record "Approved" (of_Z 10) (dyadic 3 (-1));
    record "Pending Review" (of_Z 5) (dyadic 9 (-2));
    record "Under Review" (of_Z 0) (of_Z 0);
    record "Rejected" (of_Z 2) (dyadic 3 (-2)) ].

(** A page and two readings of the clock to run examples on. *)
Definition page : State :=
  {| elements :=
       {| Elements.approved := Some "234"; Elements.pending := Some "156";
          Elements.review := Some "43"; Elements.rejected := Some "12";
          Elements.lastUpdate := Some "Just now";
          Elements.coverage := Some "Coverage: 4 States | 445 Active Claims" |};
     console := [];
     loadedData := [] |}.

Definition morning : Date :=
  {| toLocaleString := "11/2/2026, 9:00:00 AM"; toLocaleTimeString := "9:00:00 AM" |}.

Definition evening : Date :=
  {| toLocaleString := "11/2/2026, 9:00:00 PM"; toLocaleTimeString := "9:00:00 PM" |}.

(** A record whose two numeric fields hold a text that is no number. *)
Definition unmeasured : Feature :=
  {| properties := Some {| status := Str "Approved";
                           claimant_families := Str "n/a";
                           area_hectares := Str "n/a" |} |}.

(** Report data with the given counters and alert figures 7, 3 and 9. *)
Definition report_of (approved pending review rejected : Z) : ReportData.t :=
  {| ReportData.totalClaims :=
       add (add (add (of_Z approved) (of_Z pending)) (of_Z review)) (of_Z rejected);
     ReportData.approved := of_Z approved;
     ReportData.pending := of_Z pending;
     ReportData.review := of_Z review;
     ReportData.rejected := of_Z rejected;
     ReportData.deforestationAlerts := of_Z 7;
     ReportData.highRiskAreas := of_Z 3;
     ReportData.ndviViolations := of_Z 9 |}.

(** The end of a line of the report. *)
Definition newline : string := "
".

(** What [Math.random()] may return: a binary64 number in [0, 1). *)
Definition unit_interval (r : number) : bool :=
  valid_binary prec emax r &&
  SFleb (S754_zero false) r && SFltb r (of_Z 1).

(** The largest number below 1. *)
Definition below_one : number := S754_finite false 9007199254740991 (-53).

(** A number that is the integer [n], [lo <= n <= hi]. *)
Definition integer_between (lo hi : Z) (x : number) : Prop :=
  exists n : Z, lo <= n <= hi /\ x = of_Z n.

End Spec.

(** ** The page as a run leaves it, and the session around it *)

Module Page.
Import JS.

(** What [getCurrentStats] reads in the place of a counter that was written
    with [n]: [n] itself, or 0 when the element is not in the document. *)
Definition counter_value (element : option string) (n : nat) : number :=
  match element with
  | Some _ => of_Z (Z.of_nat n)
  | None => S754_zero false
  end.

(** A record whose area adds up as a number: a number, a boolean, null,
    missing, or the empty text; a non-empty text, an array or an object turns
    the total into a text. *)
Definition numeric_area (record : Feature) : bool :=
  match area_hectares (Spec.fields record) with
  | Undefined | Null | Bool _ | Num _ => true
  | Str t => (t =? "")%string
  | Obj _ => false
  end.

Definition present {A : Type} (element : option A) : bool :=
  match element with
  | Some _ => true
  | None => false
  end.

Definition is_num (v : value) : bool :=
  match v with Num _ => true | _ => false end.

Definition is_str (v : value) : bool :=
  match v with Str _ => true | _ => false end.

(** The elements after the three writes of [updateFromData]. *)
Definition written (counts : Counts.t) (now : Date) (claimCount : nat) (s : State) : Elements.t :=
  elements
    (snd ((Dashboard.updateCountElements counts ;;
           Dashboard.updateLastUpdate now ;;
           Dashboard.updateCoverageInfo claimCount) s)).

(** The phrase [updateCoverageInfo] writes for a claim count. *)
Definition coverage_phrase (claimCount : nat) : string :=
  "Coverage: 4 States | " ++ digits (Z.of_nat claimCount) ++ " Active Claims".

(** A text that starts with a digit. *)
Definition numbered (x : string) : bool :=
  match x with
  | String c _ => Dashboard.isDigit c
  | EmptyString => false
  end.

(** No character of [s] is [c]. *)
Fixpoint lacks (c : ascii) (s : string) : bool :=
  match s with
  | EmptyString => true
  | String b s' => negb (Ascii.eqb b c) && lacks c s'
  end.

(** The binary64 number that is the whole number [z], [0 < z < 2^53]: its 53-bit
    mantissa and its exponent. *)
Definition whole (z : Z) : number :=
  S754_finite false (Z.to_pos (z * 2 ^ (53 - Zdigits2 z))) (Zdigits2 z - 53).

(** A batch that [updateFromData] gets through: every record with its
    properties object and a status that is a text or absent, and every area
    one that adds up as a number. *)
Definition loads (batch : list Feature) : bool :=
  forallb Spec.labelled batch && forallb numeric_area batch.

(** A record whose status is a number code, not a text. *)
Definition coded : Feature :=
  {| properties := Some {| status := Num (of_Z 3);
                           claimant_families := Num (of_Z 4);
                           area_hectares := Num (of_Z 2) |} |}.

End Page.

(** ** [class FRAAtlasApp], continued: start-up and export

    The state of a session: the page, the [style.display] of the loading
    spinner ([None] when the element is not in the document), what went to
    [console.error] (the message, and the error object when one was passed
    with it), the texts shown by [alert], and the files handed to the browser
    for download. *)

Module Lifecycle.
Import JS.

Record Download : Type := { download : string; content : string }.

Record Session : Type := {
  page : State;
  customLoading : option string;
  errors : list (string * option error);
  alerts : list string;
  downloads : list Download
}.

Definition showCustomLoading (x : Session) : Session :=
  {| page := page x;
     customLoading := Dashboard.write "block" (customLoading x);
     errors := errors x; alerts := alerts x; downloads := downloads x |}.

Definition hideCustomLoading (x : Session) : Session :=
  {| page := page x;
     customLoading := Dashboard.write "none" (customLoading x);
     errors := errors x; alerts := alerts x; downloads := downloads x |}.

Definition showError (message : string) (x : Session) : Session :=
  {| page := page x;
     customLoading := customLoading x;
     errors := errors x ++ [(message, None)];
     alerts := alerts x ++ ["Error: " ++ message];
     downloads := downloads x |}.

(** The five lines [init] logs after the data has loaded. *)
Definition ready : list string :=
    ["🌳 FRA Atlas DSS MVP loaded successfully!";
     "📊 Multi-state monitoring: Odisha, MP, Tripura, Telangana";
     "🛰️ Real-time satellite analysis using Sentinel-2 data";
     "📋 Enhanced with reporting system and PDF export";
     "🚀 Ready for SIH 2025 presentation!"].

(** Statements of the application run on the whole session. The classes
    [MapManager] and [ReportModal] are not in these files: what their code
    does to the session, and what it returns or throws, is a parameter of
    whatever calls it. *)
Definition Run (A : Type) : Type := Session -> completion A * Session.

Definition and_then {A B : Type} (m : Run A) (k : A -> Run B) : Run B :=
  fun x =>
    match m x with
    | (Normal a, x') => k a x'
    | (Throw e, x') => (Throw e, x')
    end.

(** A statement of the dashboard, run on the page of the session. *)
Definition on_page {A : Type} (m : M A) : Run A :=
  fun x =>
    let (result, p) := m (page x) in
    (result,
     {| page := p; customLoading := customLoading x;
        errors := errors x; alerts := alerts x; downloads := downloads x |}).

Definition act (f : Session -> Session) : Run unit := fun x => (Normal tt, f x).

(** [console.error(message, error)] *)
Definition console_error (message : string) (e : error) (x : Session) : Session :=
  {| page := page x;
     customLoading := customLoading x;
     errors := errors x ++ [(message, Some e)];
     alerts := alerts x;
     downloads := downloads x |}.

(** [try { body } catch (error) { handler }] *)
Definition try_catch (body : Run unit) (handler : error -> Run unit) : Run unit :=
  fun x =>
    match body x with
    | (Normal _, x') => (Normal tt, x')
    | (Throw e, x') => handler e x'
    end.

Declare Scope run_scope.
Delimit Scope run_scope with run.
Notation "x <- m ;; k" := (and_then m (fun x => k))
  (at level 61, m at next level, right associativity) : run_scope.
Notation "m ;; k" := (and_then m (fun _ => k))
  (at level 61, right associativity) : run_scope.

(** [init]. [setup] is the five [initialize...] calls, which construct the
    map, the dashboard and the modal and add the event listeners;
    [loadStateData] is [await this.mapManager.loadStateData(stateFiles)]
    with whatever happens until the promise settles. The rest is
    [loadMultiStateData] from the assignment on, and the five log lines. *)
Definition init (now : Date) (setup : Run unit) (loadStateData : Run (list Feature)) :
    Run unit :=
  try_catch
    (setup ;;
     data <- loadStateData ;;
     on_page (FRAAtlasApp.loadMultiStateData now data) ;;
     on_page (log "🌳 FRA Atlas DSS MVP loaded successfully!") ;;
     on_page (log "📊 Multi-state monitoring: Odisha, MP, Tripura, Telangana") ;;
     on_page (log "🛰️ Real-time satellite analysis using Sentinel-2 data") ;;
     on_page (log "📋 Enhanced with reporting system and PDF export") ;;
     on_page (log "🚀 Ready for SIH 2025 presentation!"))%run
    (fun error =>
       (act (console_error "Error initializing FRA Atlas DSS:" error) ;;
        act (showError "Failed to initialize application"))%run).

(** [iso.split('T')[0]]: the text before the first T, all of it when there
    is none. *)
Fixpoint before_T (iso : string) : string :=
  match iso with
  | EmptyString => EmptyString
  | String c rest => if Ascii.eqb c "T" then EmptyString else String c (before_T rest)
  end.

(** The text of the alert that follows a download. *)
Definition generated : string :=
  "📄 Report Generated Successfully!

Comprehensive FRA Atlas report has been downloaded.

Includes:
• Claim status analysis
• Environmental alerts
• NDVI trends
• Community impact metrics
• Technical specifications".

(** [exportReport] runs in three turns. The call itself shows the spinner
    and sets a timer. *)
Definition exportReport (x : Session) : Session := showCustomLoading x.

(** Two seconds later the first timer hides the spinner, builds the report
    and hands it over for download. [now] is the [new Date()] of the
    report's second line, [iso] what [new Date().toISOString()] returns when
    the file is named; [counts], [r1], [r2], [r3] are as for
    [generateReportData]. *)
Definition exportReport_download (now : Date) (iso : string) (counts : list string)
    (r1 r2 r3 : number) (x : Session) : Session :=
  let x := hideCustomLoading x in
  let reportData := FRAAtlasApp.generateReportData counts r1 r2 r3 in
  let reportContent := FRAAtlasApp.createReportContent now reportData in
  {| page := page x;
     customLoading := customLoading x;
     errors := errors x;
     alerts := alerts x;
     downloads := downloads x
                  ++ [ {| download := "FRA_Atlas_Report_" ++ before_T iso ++ ".txt";
                          content := reportContent |} ] |}.

(** Half a second later the second timer shows the alert. *)
Definition exportReport_alert (x : Session) : Session :=
  {| page := page x;
     customLoading := customLoading x;
     errors := errors x;
     alerts := alerts x ++ [generated];
     downloads := downloads x |}.

(** A session on the example page, spinner hidden, nothing reported yet. *)
Definition idle : Session :=
  {| page := Spec.page; customLoading := Some "none";
     errors := []; alerts := []; downloads := [] |}.

End Lifecycle.

(** * Properties *)

Import JS.

(** ** The runtime on examples *)

Example number_to_string_examples :
  map number_to_string
    [of_Z 17; dyadic 9 (-1); div (of_Z 1) (of_Z 3); add (div (of_Z 1) (of_Z 10)) (div (of_Z 2) (of_Z 10));
     of_Z (10 ^ 21); div (of_Z 1) (of_Z 10000000); of_Z (-5); div (of_Z 1) (of_Z 0); div (of_Z 0) (of_Z 0)]
  = ["17"; "4.5"; "0.3333333333333333"; "0.30000000000000004";
     "1e+21"; "1e-7"; "-5"; "Infinity"; "NaN"].
Proof. vm_compute. reflexivity. Qed.

Example toFixed1_examples :
  map toFixed1
    [of_Z 0; dyadic 9 (-1); div (of_Z 24156) (of_Z 445); dyadic 1 (-2);
     div (of_Z 35) (of_Z 100); div (of_Z (-4)) (of_Z 100); div (of_Z 24156) (of_Z 0)]
  = ["0.0"; "4.5"; "54.3"; "0.3"; "0.3"; "-0.0"; "Infinity"].
Proof. vm_compute. reflexivity. Qed.

Example parseInt_examples :
  map (fun s => number_to_string (parseInt s))
    ["234"; "  42px"; "-12.5"; "0x1F"; ""; "n/a"; "9007199254740993"]
  = ["234"; "42"; "-12"; "31"; "NaN"; "NaN"; "9007199254740992"].
Proof. vm_compute. reflexivity. Qed.

Example plus_examples :
  [plus (Num (of_Z 1)) (Num (of_Z 2)); plus (Num (of_Z 0)) (Str "n/a");
   plus (Str "012") (Num (of_Z 0)); plus (Num (of_Z 0)) (Bool true);
   plus (Num (of_Z 0)) Undefined]
  = [Num (of_Z 3); Str "0n/a"; Str "0120"; Num (of_Z 1); Num NaN].
Proof. vm_compute. reflexivity. Qed.

(** U+00A0, U+FEFF and U+2028 before the digits are skipped like a blank,
    another character of two bytes is not; an array or object operand of
    [+] makes a text. *)
Example parseInt_skips_wide_space :
  map (fun s => number_to_string (parseInt s))
    [ String (ascii_of_nat 194) (String (ascii_of_nat 160) "42");
      String (ascii_of_nat 239) (String (ascii_of_nat 187) (String (ascii_of_nat 191) " 7"));
      String (ascii_of_nat 226) (String (ascii_of_nat 128) (String (ascii_of_nat 168) "12"));
      String (ascii_of_nat 195) (String (ascii_of_nat 160) "5") ]
  = ["42"; "7"; "12"; "NaN"].
Proof. vm_compute. reflexivity. Qed.

Example plus_object_examples :
  [plus (Num (of_Z 0)) (Obj ""); plus (Num (of_Z 0)) (Obj "1,2");
   plus (Num (of_Z 5)) (Obj "[object Object]")]
  = [Str "0"; Str "01,2"; Str "5[object Object]"].
Proof. vm_compute. reflexivity. Qed.

(** The four-record scenario run on the example page. *)
Example scenario_on_page :
  Dashboard.updateFromData Spec.morning Spec.scenario Spec.page =
  (Normal tt,
   {| elements :=
        {| Elements.approved := Some "1"; Elements.pending := Some "1";
           Elements.review := Some "1"; Elements.rejected := Some "1";
           Elements.lastUpdate := Some "Updated 9:00:00 AM";
           Elements.coverage := Some "Coverage: 4 States | 4 Active Claims" |};
      console := ["📊 Dashboard updated: 4 claims, 17 families, 4.5 hectares"];
      loadedData := [] |}).
Proof. vm_compute. reflexivity. Qed.

(** ** Text *)

Lemma startsWith_refl (s : string) : startsWith s s = true.
Proof.
  induction s as [|c s IH]; simpl; [reflexivity|].
  now rewrite Ascii.eqb_refl.
Qed.

Lemma startsWith_append (p s : string) : startsWith (p ++ s) p = true.
Proof.
  induction p as [|c p IH]; simpl; [reflexivity|].
  now rewrite Ascii.eqb_refl.
Qed.

Lemma includes_here (s p : string) : startsWith s p = true -> includes s p = true.
Proof.
  intros H. destruct s; simpl in *; now rewrite H.
Qed.

Lemma includes_skip (c : ascii) (s p : string) :
  includes s p = true -> includes (String c s) p = true.
Proof.
  intros H. simpl. rewrite H. apply orb_true_r.
Qed.

Lemma includes_append_r (a s p : string) :
  includes s p = true -> includes (a ++ s) p = true.
Proof.
  intros H. induction a as [|c a IH]; simpl; [exact H|].
  change (startsWith (String c (a ++ s)) p || includes (a ++ s) p = true).
  rewrite IH. apply orb_true_r.
Qed.

Lemma startsWith_spec (s p : string) :
  startsWith s p = true <-> exists rest, s = p ++ rest.
Proof.
  revert s. induction p as [|a p IH]; intros s; simpl.
  - split; [now exists s | reflexivity].
  - destruct s as [|b s].
    + split; [discriminate | intros [rest H]; discriminate].
    + rewrite andb_true_iff, IH. split.
      * intros [Hab [rest ->]]. apply Ascii.eqb_eq in Hab. subst. now exists rest.
      * intros [rest H]. injection H as <- ->. split; [apply Ascii.eqb_refl | now exists rest].
Qed.

(** [includes] is the substring relation. *)
Lemma includes_spec (s p : string) :
  includes s p = true <-> exists before after, s = before ++ p ++ after.
Proof.
  induction s as [|c s IH].
  - simpl. rewrite orb_false_r, startsWith_spec. split.
    + intros [rest H]. now exists "", rest.
    + intros [before [after H]]. destruct before; [now exists after | discriminate].
  - change (includes (String c s) p) with (startsWith (String c s) p || includes s p).
    rewrite orb_true_iff, IH, startsWith_spec. split.
    + intros [[rest H] | [before [after H]]].
      * now exists "", rest.
      * exists (String c before), after. simpl. now rewrite H.
    + intros [before [after H]]. destruct before as [|b before].
      * left. now exists after.
      * right. injection H as _ H. now exists before, after.
Qed.

Lemma lower_of_letter (a : ascii) :
  lower a = a -> lower (Spec.upper a) = a.
Proof.
  destruct a as [[] [] [] [] [] [] [] []]; vm_compute; congruence.
Qed.

Lemma any_case_toLowerCase (t s : string) :
  toLowerCase t = t -> Spec.any_case t s -> toLowerCase s = t.
Proof.
  revert s. induction t as [|a t IH]; intros [|b s]; simpl; try tauto.
  intros Ht [Hb Hs]. injection Ht as Ha Ht.
  rewrite (IH s Ht Hs). f_equal.
  destruct Hb as [-> | ->]; [exact Ha | now apply lower_of_letter].
Qed.

(** ** The loop of [updateFromData] *)

Lemma or_Str (s : string) : or (Str s) (Str "") = Str s.
Proof.
  unfold or. simpl. destruct (String.eqb_spec s ""); simpl; congruence.
Qed.

Lemma labelled_has_properties (record : Feature) :
  Spec.labelled record = true -> properties record = Some (Spec.fields record).
Proof.
  unfold Spec.labelled, Spec.has_properties, Spec.fields.
  destruct (properties record); [reflexivity | discriminate].
Qed.

Lemma status_of_labelled (record : Feature) :
  Spec.labelled record = true ->
  or (status (Spec.fields record)) (Str "") = Str (Spec.label record).
Proof.
  unfold Spec.labelled, Spec.label. intros H.
  apply andb_true_iff in H as [_ H]. revert H.
  destruct (status (Spec.fields record)) as [| |b|x|s|o] eqn:E; intros H.
  - reflexivity.
  - reflexivity.
  - unfold or. now rewrite (negb_true_iff _) in H; rewrite H.
  - unfold or. now rewrite (negb_true_iff _) in H; rewrite H.
  - apply or_Str.
  - discriminate.
Qed.

(** The counters after one record: the [if]/[else if] chain is the
    first-match classification of the specification. *)
Lemma visit_labelled (acc : Dashboard.Totals) (record : Feature) :
  Spec.labelled record = true ->
  Dashboard.visit acc record =
  Normal
    {| Dashboard.counts :=
         Spec.tallied (Spec.classify (Spec.label record)) (Dashboard.counts acc);
       Dashboard.totalFamilies :=
         plus (Dashboard.totalFamilies acc)
              (or (claimant_families (Spec.fields record)) (Num (S754_zero false)));
       Dashboard.totalArea :=
         plus (Dashboard.totalArea acc)
              (or (area_hectares (Spec.fields record)) (Num (S754_zero false))) |}.
Proof.
  intros H. unfold Dashboard.visit.
  rewrite (labelled_has_properties record H).
  rewrite (status_of_labelled record H). cbn [call_toLowerCase].
  unfold Spec.classify. cbn [Spec.priority find fst snd].
  destruct (includes _ "approved"); [destruct (Dashboard.counts acc); reflexivity|].
  destruct (includes _ "pending"); [destruct (Dashboard.counts acc); reflexivity|].
  destruct (includes _ "review"); [destruct (Dashboard.counts acc); reflexivity|].
  destruct (includes _ "reject"); destruct (Dashboard.counts acc); reflexivity.
Qed.

Lemma counted_tallied (c : option Spec.Category) (counts : Counts.t) :
  Spec.counted (Spec.tallied c counts) =
  (Spec.counted counts + match c with Some _ => 1 | None => 0 end)%nat.
Proof.
  destruct c as [[]|]; unfold Spec.counted; simpl; lia.
Qed.

Lemma forEach_partition (batch : list Feature) :
  forallb Spec.labelled batch = true ->
  forall acc, exists totals,
    Dashboard.forEach batch acc = Normal totals /\
    (Spec.counted (Dashboard.counts totals) + Spec.unclassifiedCount batch
     = Spec.counted (Dashboard.counts acc) + List.length batch)%nat.
Proof.
  induction batch as [|record batch IH]; intros H acc.
  - exists acc. split; [reflexivity|]. unfold Spec.unclassifiedCount. simpl. lia.
  - simpl in H. apply andb_true_iff in H as [Hr Hb].
    cbn [Dashboard.forEach]. rewrite (visit_labelled acc record Hr).
    destruct (IH Hb
      {| Dashboard.counts :=
           Spec.tallied (Spec.classify (Spec.label record)) (Dashboard.counts acc);
         Dashboard.totalFamilies :=
           plus (Dashboard.totalFamilies acc)
                (or (claimant_families (Spec.fields record)) (Num (S754_zero false)));
         Dashboard.totalArea :=
           plus (Dashboard.totalArea acc)
                (or (area_hectares (Spec.fields record)) (Num (S754_zero false))) |})
      as [totals [Hrun Hsum]].
    exists totals. split; [exact Hrun|].
    cbn [Dashboard.counts] in Hsum. rewrite counted_tallied in Hsum.
    unfold Spec.unclassifiedCount in *. cbn [filter]. unfold Spec.unclassified at 1.
    destruct (Spec.classify (Spec.label record)); cbn [List.length] in *; lia.
Qed.

(** C1. For every batch of claim records (each with its properties object,
    the status a text, or absent), the aggregation loop produces its totals, and the four category counters
    plus the number of unclassified records add up to the batch length: every
    record is counted in at most one bucket, and a record matching no
    category is counted in the batch length only. *)
Theorem counts_partition_batch (batch : list Feature) :
  forallb Spec.labelled batch = true ->
  exists totals,
    Dashboard.forEach batch Dashboard.initial = Normal totals /\
    (Counts.approved (Dashboard.counts totals)
     + Counts.pending (Dashboard.counts totals)
     + Counts.review (Dashboard.counts totals)
     + Counts.rejected (Dashboard.counts totals)
     + Spec.unclassifiedCount batch
     = List.length batch)%nat.
Proof.
  intros H.
  destruct (forEach_partition batch H Dashboard.initial) as [totals [Hrun Hsum]].
  exists totals. split; [exact Hrun|].
  unfold Spec.counted in Hsum. cbn in Hsum. lia.
Qed.

Lemma counts_partition_batch_witness :
  exists totals,
    Dashboard.forEach
      [ {| properties := Some {| status := Str "Approved"; claimant_families := Undefined;
                                 area_hectares := Undefined |} |};
        {| properties := Some {| status := Str "Unknown"; claimant_families := Undefined;
                                 area_hectares := Undefined |} |};
        {| properties := Some {| status := Undefined; claimant_families := Undefined;
                                 area_hectares := Undefined |} |} ]
      Dashboard.initial = Normal totals /\
    (Counts.approved (Dashboard.counts totals)
     + Counts.pending (Dashboard.counts totals)
     + Counts.review (Dashboard.counts totals)
     + Counts.rejected (Dashboard.counts totals)
     + Spec.unclassifiedCount
         [ {| properties := Some {| status := Str "Approved"; claimant_families := Undefined;
                                    area_hectares := Undefined |} |};
           {| properties := Some {| status := Str "Unknown"; claimant_families := Undefined;
                                    area_hectares := Undefined |} |};
           {| properties := Some {| status := Undefined; claimant_families := Undefined;
                                    area_hectares := Undefined |} |} ]
     = 3)%nat.
Proof.
  apply (counts_partition_batch
    [ {| properties := Some {| status := Str "Approved"; claimant_families := Undefined;
                               area_hectares := Undefined |} |};
      {| properties := Some {| status := Str "Unknown"; claimant_families := Undefined;
                               area_hectares := Undefined |} |};
      {| properties := Some {| status := Undefined; claimant_families := Undefined;
                               area_hectares := Undefined |} |} ]).
  reflexivity.
Defined.

(** C2. For every claim record (with its properties object, the status a
    text, or absent), the classification lower-cases the status label and tries the keywords
    approved, pending, review, reject in this order, the first that occurs
    deciding the bucket; in particular a record whose status is
    pending review, in any letter case, is counted as Pending and not as
    UnderReview. *)
Theorem classification_first_match (acc : Dashboard.Totals) (record : Feature) :
  Spec.labelled record = true ->
  exists totals,
    Dashboard.visit acc record = Normal totals /\
    Dashboard.counts totals =
      Spec.tallied (Spec.classify (Spec.label record)) (Dashboard.counts acc) /\
    (Spec.any_case "pending review" (Spec.label record) ->
     Spec.classify (Spec.label record) = Some Spec.Pending /\
     Counts.pending (Dashboard.counts totals) = S (Counts.pending (Dashboard.counts acc)) /\
     Counts.review (Dashboard.counts totals) = Counts.review (Dashboard.counts acc)).
Proof.
  intros Hl.
  eexists. split; [apply (visit_labelled acc record Hl)|].
  cbn [Dashboard.counts]. split; [reflexivity|].
  intros Hcase.
  assert (Hp : Spec.classify (Spec.label record) = Some Spec.Pending).
  { unfold Spec.classify.
    rewrite (any_case_toLowerCase "pending review" _ eq_refl Hcase). reflexivity. }
  rewrite Hp. split; [reflexivity|]. split; reflexivity.
Qed.

Lemma classification_first_match_witness :
  Spec.any_case "pending review" "PENDING Review" /\
  exists totals,
    Dashboard.visit Dashboard.initial
      (Spec.record "PENDING Review" (of_Z 5) (dyadic 9 (-2))) = Normal totals /\
    Dashboard.counts totals =
      Spec.tallied (Spec.classify "PENDING Review") (Dashboard.counts Dashboard.initial) /\
    (Spec.any_case "pending review" "PENDING Review" ->
     Spec.classify "PENDING Review" = Some Spec.Pending /\
     Counts.pending (Dashboard.counts totals) = 1%nat /\
     Counts.review (Dashboard.counts totals) = 0%nat).
Proof.
  split.
  - simpl. repeat split; (left; reflexivity) || (right; reflexivity).
  - apply (classification_first_match Dashboard.initial
             (Spec.record "PENDING Review" (of_Z 5) (dyadic 9 (-2)))).
    reflexivity.
Defined.

(** C8. Aggregating the empty batch succeeds and yields all zeros: every
    category counter is 0, both totals are 0, the batch length shown is 0;
    the dashboard update finishes normally and writes 0 into the counters. *)
Theorem empty_batch_all_zero :
  Dashboard.forEach [] Dashboard.initial =
    Normal {| Dashboard.counts :=
                {| Counts.approved := 0; Counts.pending := 0;
                   Counts.review := 0; Counts.rejected := 0 |};
              Dashboard.totalFamilies := Num (of_Z 0);
              Dashboard.totalArea := Num (of_Z 0) |} /\
  forall (now : Date) (s : State),
  exists s',
    Dashboard.updateFromData now [] s = (Normal tt, s') /\
    Elements.approved (elements s') = Dashboard.write "0" (Elements.approved (elements s)) /\
    Elements.pending (elements s') = Dashboard.write "0" (Elements.pending (elements s)) /\
    Elements.review (elements s') = Dashboard.write "0" (Elements.review (elements s)) /\
    Elements.rejected (elements s') = Dashboard.write "0" (Elements.rejected (elements s)) /\
    console s' = (console s ++ ["📊 Dashboard updated: 0 claims, 0 families, 0.0 hectares"])%list.
Proof.
  split; [reflexivity|].
  intros now s. eexists. split; [reflexivity|].
  repeat split.
Qed.

(** C9. The four-record scenario: one record in each category, 17 families
    and 4.5 hectares; the two totals are the plain sums of the raw field
    values, and the one-decimal rounding is applied to the text of the log
    line only. *)
Theorem scenario_totals :
  Dashboard.forEach Spec.scenario Dashboard.initial =
    Normal {| Dashboard.counts :=
                {| Counts.approved := 1; Counts.pending := 1;
                   Counts.review := 1; Counts.rejected := 1 |};
              Dashboard.totalFamilies := Num (of_Z 17);
              Dashboard.totalArea := Num (dyadic 9 (-1)) |} /\
  of_Z 17 = Spec.total [of_Z 10; of_Z 5; of_Z 0; of_Z 2] /\
  dyadic 9 (-1) = Spec.total [dyadic 3 (-1); dyadic 9 (-2); of_Z 0; dyadic 3 (-2)] /\
  map number_to_string [dyadic 3 (-1); dyadic 9 (-2); dyadic 3 (-2); dyadic 9 (-1)]
    = ["1.5"; "2.25"; "0.75"; "4.5"] /\
  forall (now : Date) (s : State),
    fst (Dashboard.updateFromData now Spec.scenario s) = Normal tt /\
    console (snd (Dashboard.updateFromData now Spec.scenario s)) =
      (console s ++ ["📊 Dashboard updated: 4 claims, 17 families, 4.5 hectares"])%list.
Proof.
  split; [vm_compute; reflexivity|].
  split; [vm_compute; reflexivity|].
  split; [vm_compute; reflexivity|].
  split; [vm_compute; reflexivity|].
  intros now s.
  assert (H : Dashboard.forEach Spec.scenario Dashboard.initial =
              Normal {| Dashboard.counts :=
                          {| Counts.approved := 1; Counts.pending := 1;
                             Counts.review := 1; Counts.rejected := 1 |};
                        Dashboard.totalFamilies := Num (of_Z 17);
                        Dashboard.totalArea := Num (dyadic 9 (-1)) |})
    by (vm_compute; reflexivity).
  unfold Dashboard.updateFromData, bind, lift. rewrite H.
  split; reflexivity.
Qed.

(** C10. When the loaded batch is empty the application does not run the
    dashboard update: nothing but [loadedData] changes, so the counters keep
    the texts they had; a batch that is not empty goes to [updateFromData]. *)
Theorem empty_load_keeps_dashboard (now : Date) (s : State) :
  FRAAtlasApp.loadMultiStateData now [] s =
    (Normal tt, {| elements := elements s; console := console s; loadedData := [] |}) /\
  forall (first : Feature) (rest : list Feature),
    FRAAtlasApp.loadMultiStateData now (first :: rest) s =
    Dashboard.updateFromData now (first :: rest)
      {| elements := elements s; console := console s; loadedData := first :: rest |}.
Proof.
  split; [reflexivity|]. intros first rest. reflexivity.
Qed.

(** ** Numeric fields *)

Lemma or_number_or_falsy (v : value) :
  Spec.number_or_falsy v = true ->
  or v (Num (S754_zero false)) = Num (Spec.falsy_as_zero v).
Proof.
  unfold or, Spec.number_or_falsy, Spec.falsy_as_zero.
  destruct v as [| |b|x|s|o]; simpl; intros H.
  - reflexivity.
  - reflexivity.
  - apply negb_true_iff in H. now rewrite H.
  - destruct (is_nan x || is_zero x); reflexivity.
  - apply negb_true_iff in H. now rewrite H.
  - discriminate.
Qed.

Lemma forEach_well_formed (batch : list Feature) :
  forallb Spec.well_formed batch = true ->
  forall (c : Counts.t) (families area : number),
  exists c',
    Dashboard.forEach batch
      {| Dashboard.counts := c;
         Dashboard.totalFamilies := Num families;
         Dashboard.totalArea := Num area |} =
    Normal
      {| Dashboard.counts := c';
         Dashboard.totalFamilies :=
           Num (fold_left add
                  (map (fun r => Spec.falsy_as_zero (claimant_families (Spec.fields r))) batch)
                  families);
         Dashboard.totalArea :=
           Num (fold_left add
                  (map (fun r => Spec.falsy_as_zero (area_hectares (Spec.fields r))) batch)
                  area) |}.
Proof.
  induction batch as [|r batch IH]; intros H c families area.
  - exists c. reflexivity.
  - simpl in H. apply andb_true_iff in H as [Hr Hb].
    unfold Spec.well_formed in Hr.
    apply andb_true_iff in Hr as [Hr Harea]. apply andb_true_iff in Hr as [Hlab Hfam].
    cbn [Dashboard.forEach]. rewrite (visit_labelled _ r Hlab).
    cbn [Dashboard.counts Dashboard.totalFamilies Dashboard.totalArea].
    rewrite (or_number_or_falsy _ Hfam), (or_number_or_falsy _ Harea).
    cbn [plus numeric map fold_left].
    apply (IH Hb).
Qed.

(** C3, as the code has it. For every batch whose records have, in their
    properties object, a text or absent status and two numeric fields that
    are each a number or a falsy value (missing, null, false, the empty
    text), the aggregation does not throw, and each total is the sum of the column in which every falsy
    field, NaN and zero included, is replaced by 0. *)
Theorem falsy_fields_count_as_zero (batch : list Feature) :
  forallb Spec.well_formed batch = true ->
  (exists totals,
     Dashboard.forEach batch Dashboard.initial = Normal totals /\
     Dashboard.totalFamilies totals =
       Num (Spec.total
              (map (fun r => Spec.falsy_as_zero (claimant_families (Spec.fields r))) batch)) /\
     Dashboard.totalArea totals =
       Num (Spec.total
              (map (fun r => Spec.falsy_as_zero (area_hectares (Spec.fields r))) batch))) /\
  forall (now : Date) (s : State),
    fst (Dashboard.updateFromData now batch s) = Normal tt.
Proof.
  intros H.
  destruct (forEach_well_formed batch H
              {| Counts.approved := 0; Counts.pending := 0;
                 Counts.review := 0; Counts.rejected := 0 |}
              (S754_zero false) (S754_zero false)) as [c' Hrun].
  fold Dashboard.initial in Hrun.
  split.
  - eexists. split; [exact Hrun|]. split; reflexivity.
  - intros now s. unfold Dashboard.updateFromData, bind, lift. rewrite Hrun.
    reflexivity.
Qed.

Lemma falsy_fields_count_as_zero_witness :
  (exists totals,
     Dashboard.forEach
       [ Spec.record "Approved" (of_Z 10) NaN;
         {| properties := Some {| status := Null; claimant_families := Undefined;
                                  area_hectares := Str "" |} |} ]
       Dashboard.initial = Normal totals /\
     Dashboard.totalFamilies totals = Num (of_Z 10) /\
     Dashboard.totalArea totals = Num (of_Z 0)) /\
  forall (now : Date) (s : State),
    fst (Dashboard.updateFromData now
           [ Spec.record "Approved" (of_Z 10) NaN;
             {| properties := Some {| status := Null; claimant_families := Undefined;
                                      area_hectares := Str "" |} |} ] s) = Normal tt.
Proof.
  apply (falsy_fields_count_as_zero
           [ Spec.record "Approved" (of_Z 10) NaN;
             {| properties := Some {| status := Null; claimant_families := Undefined;
                                      area_hectares := Str "" |} |} ]).
  reflexivity.
Defined.

(** C3, as stated, fails on a field that holds a text: the text is not
    replaced by 0 but appended to the total, which becomes a text itself, and
    formatting such an area total for the log line throws. *)
Lemma text_field_is_not_coerced :
  Dashboard.forEach [Spec.unmeasured] Dashboard.initial =
    Normal {| Dashboard.counts :=
                {| Counts.approved := 1; Counts.pending := 0;
                   Counts.review := 0; Counts.rejected := 0 |};
              Dashboard.totalFamilies := Str "0n/a";
              Dashboard.totalArea := Str "0n/a" |} /\
  Spec.total (map (fun r => Spec.number_or_zero (claimant_families (Spec.fields r)))
                  [Spec.unmeasured]) = of_Z 0 /\
  Spec.total (map (fun r => Spec.number_or_zero (area_hectares (Spec.fields r)))
                  [Spec.unmeasured]) = of_Z 0 /\
  fst (Dashboard.updateFromData Spec.morning [Spec.unmeasured] Spec.page) = Throw TypeError.
Proof.
  repeat split; vm_compute; reflexivity.
Qed.

(** ** The report *)

Lemma startsWith_cons (c : ascii) (s p : string) :
  startsWith s p = true -> startsWith (String c s) (String c p) = true.
Proof.
  intros H. simpl. now rewrite Ascii.eqb_refl.
Qed.

Lemma startsWith_append_both (a s p : string) :
  startsWith s p = true -> startsWith (a ++ s) (a ++ p) = true.
Proof.
  intros H. induction a as [|c a IH]; simpl; [exact H|].
  now rewrite Ascii.eqb_refl.
Qed.

(** Finding a piece of text in a template: walk over the literal
    characters and step over the interpolated pieces. *)
Ltac at_this_place :=
  lazymatch goal with
  | |- startsWith _ EmptyString = true => reflexivity
  | |- startsWith (String ?c _) (String ?c _) = true =>
      apply startsWith_cons; at_this_place
  | |- startsWith (?a ++ _) (?a ++ _) = true =>
      apply startsWith_append_both; at_this_place
  | |- startsWith (?a ++ _) ?a = true => apply startsWith_append
  end.

Ltac find_text :=
  repeat
    lazymatch goal with
    | |- includes (String _ _) _ = true =>
        first [ solve [apply includes_here; at_this_place] | apply includes_skip ]
    | |- includes (?a ++ _) (?pre ++ _) = true =>
        lazymatch a with
        | String _ _ =>
            let hit := eval vm_compute in (includes a pre) in
            lazymatch hit with
            | true => cbn [append]
            | false => apply includes_append_r
            end
        | _ => apply includes_append_r
        end
    | |- includes (_ ++ _) _ = true => apply includes_append_r
    end.

Lemma report_average_line (now : Date) (data : ReportData.t) :
  includes (FRAAtlasApp.createReportContent now data)
    ("Average Claim Size: "
     ++ toFixed1 (div (of_Z 24156) (ReportData.totalClaims data)) ++ " hectares") = true.
Proof. unfold FRAAtlasApp.createReportContent. find_text. Qed.

Lemma append_cancel_l (a x y : string) : a ++ x = a ++ y -> x = y.
Proof.
  induction a as [|c a IH]; simpl; intros H; [exact H|].
  injection H as H. now apply IH.
Qed.

Lemma length_append (x y : string) :
  String.length (x ++ y) = (String.length x + String.length y)%nat.
Proof.
  induction x as [|c x IH]; simpl; [reflexivity|]. now rewrite IH.
Qed.

Lemma append_cancel_r (r x y : string) : x ++ r = y ++ r -> x = y.
Proof.
  revert y. induction x as [|c x IH]; intros [|d y] H; simpl in H.
  - reflexivity.
  - apply (f_equal String.length) in H. simpl in H. rewrite length_append in H. lia.
  - apply (f_equal String.length) in H. simpl in H. rewrite length_append in H. lia.
  - injection H as -> H. f_equal. now apply IH.
Qed.

(** C4. With no claims counted the division is by zero; it does not throw,
    and what the report prints as the average claim size is the text
    Infinity, the rendering of the quotient, not a fallback of the program's
    choosing. *)
Theorem no_claims_average_is_Infinity (now : Date) (r1 r2 r3 : number) :
  ReportData.totalClaims (FRAAtlasApp.generateReportData ["0"; "0"; "0"; "0"] r1 r2 r3)
    = S754_zero false /\
  includes
    (FRAAtlasApp.createReportContent now
       (FRAAtlasApp.generateReportData ["0"; "0"; "0"; "0"] r1 r2 r3))
    "Average Claim Size: Infinity hectares" = true.
Proof.
  split; [reflexivity|].
  apply (report_average_line now
           (FRAAtlasApp.generateReportData ["0"; "0"; "0"; "0"] r1 r2 r3)).
Qed.

(** C6, as the code has it. The report carries the time of its making on
    its second line and depends on the clock in that place only: two reports
    built from the same statistics and the same alert figures are equal
    character for character exactly when the two clock readings render to
    the same text. *)
Theorem report_determined_up_to_clock (now1 now2 : Date) (data : ReportData.t) :
  (FRAAtlasApp.createReportContent now1 data = FRAAtlasApp.createReportContent now2 data
   <-> toLocaleString now1 = toLocaleString now2) /\
  exists head body : string,
    forall now : Date,
      FRAAtlasApp.createReportContent now data = head ++ toLocaleString now ++ body.
Proof.
  unfold FRAAtlasApp.createReportContent. split; [split|].
  - intros H. apply append_cancel_l in H. now apply append_cancel_r in H.
  - intros H. now rewrite H.
  - eexists. eexists. intros now. reflexivity.
Qed.

(** C6, as stated, fails: the same statistics and alert figures reported in
    the morning and in the evening give two different documents. *)
Lemma reports_differ_by_clock :
  (FRAAtlasApp.createReportContent Spec.morning (Spec.report_of 234 156 43 12)
   =? FRAAtlasApp.createReportContent Spec.evening (Spec.report_of 234 156 43 12))%string
  = false.
Proof. vm_compute. reflexivity. Qed.

(** ** Binary64 rounding *)

Lemma digits2_bounds (p : positive) :
  2 ^ (Zpos (digits2_pos p) - 1) <= Zpos p < 2 ^ Zpos (digits2_pos p).
Proof.
  induction p as [p IH|p IH|]; simpl digits2_pos.
  - rewrite Pos2Z.inj_succ, Z.pow_succ_r by lia.
    replace (Z.succ (Zpos (digits2_pos p)) - 1) with (Z.succ (Zpos (digits2_pos p) - 1)) by lia.
    rewrite Z.pow_succ_r by lia. lia.
  - rewrite Pos2Z.inj_succ, Z.pow_succ_r by lia.
    replace (Z.succ (Zpos (digits2_pos p)) - 1) with (Z.succ (Zpos (digits2_pos p) - 1)) by lia.
    rewrite Z.pow_succ_r by lia. lia.
  - simpl. lia.
Qed.

Lemma Zdigits2_le (m k : Z) : 0 <= m < 2 ^ k -> 0 <= k -> Zdigits2 m <= k.
Proof.
  intros [H0 Hk] Hk0. destruct m as [|p|p]; simpl; [lia| |lia].
  pose proof (digits2_bounds p) as [Hlo _].
  assert (2 ^ (Zpos (digits2_pos p) - 1) < 2 ^ k) by lia.
  apply Z.pow_lt_mono_r_iff in H; lia.
Qed.

Lemma shr_1_spec (mrs : shr_record) :
  0 <= shr_m mrs ->
  shr_m (shr_1 mrs) = shr_m mrs / 2 /\ shr_r (shr_1 mrs) = Z.odd (shr_m mrs).
Proof.
  destruct mrs as [m r s]. simpl shr_m at 1 2. intros H.
  rewrite <- Z.div2_div.
  destruct m as [|[p|p|]|p]; simpl; try lia; split; reflexivity.
Qed.

Lemma shifted_compose (j k : Z) (x y z : shr_record) :
  0 < j -> 0 < k -> 0 <= shr_m x ->
  shifted j x y -> shifted k y z -> shifted (j + k) x z.
Proof.
  intros Hj Hk Hx [Hy _] [Hz Hr]. split.
  - rewrite Hz, Hy, Z.div_div, <- Z.pow_add_r by lia. reflexivity.
  - rewrite Hr, Hy, Z.div_div, <- Z.pow_add_r by lia.
    now replace (j + (k - 1)) with (j + k - 1) by lia.
Qed.

Lemma iter_pos_shifted (p : positive) (x : shr_record) :
  0 <= shr_m x -> shifted (Zpos p) x (iter_pos shr_1 p x).
Proof.
  assert (Hone : forall x, 0 <= shr_m x -> shifted 1 x (shr_1 x)).
  { intros y Hy. destruct (shr_1_spec y Hy) as [Hm Hr]. split.
    - now rewrite Hm.
    - rewrite Hr. simpl. now rewrite Z.div_1_r. }
  assert (Hpos : forall k x y, 0 <= shr_m x -> shifted k x y -> 0 <= shr_m y).
  { intros k a b Ha [Hb _]. rewrite Hb.
    destruct (Z.le_gt_cases 0 k).
    - apply Z.div_pos; [lia | apply Z.pow_pos_nonneg; lia].
    - rewrite Z.pow_neg_r by lia. now rewrite Z.div_0_r. }
  revert x. induction p as [p IH|p IH|]; intros x Hx; simpl iter_pos.
  - pose proof (Hone x Hx) as H1.
    pose proof (Hpos _ _ _ Hx H1) as Hx1.
    pose proof (IH _ Hx1) as H2.
    pose proof (Hpos _ _ _ Hx1 H2) as Hx2.
    pose proof (IH _ Hx2) as H3.
    replace (Zpos p~1) with (1 + Zpos p + Zpos p) by lia.
    apply (shifted_compose (1 + Zpos p) (Zpos p) x (iter_pos shr_1 p (shr_1 x)));
      try lia; [|exact H3].
    apply (shifted_compose 1 (Zpos p) x (shr_1 x)); try lia; assumption.
  - pose proof (IH _ Hx) as H2.
    pose proof (Hpos _ _ _ Hx H2) as Hx2.
    pose proof (IH _ Hx2) as H3.
    replace (Zpos p~0) with (Zpos p + Zpos p) by lia.
    apply (shifted_compose (Zpos p) (Zpos p) x (iter_pos shr_1 p x)); try lia; assumption.
  - apply Hone, Hx.
Qed.

Lemma shr_fexp_exact (M E : Z) :
  0 <= M ->
  exists n,
    0 <= n /\
    snd (shr_fexp prec emax M E loc_Exact) = E + n /\
    (n = 0 \/ E + n = fexp prec emax (Zdigits2 M + E)) /\
    shr_m (fst (shr_fexp prec emax M E loc_Exact)) = M / 2 ^ n /\
    (shr_r (fst (shr_fexp prec emax M E loc_Exact)) = true ->
     0 < n /\ Z.odd (M / 2 ^ (n - 1)) = true).
Proof.
  intros HM. unfold shr_fexp, shr. cbn [shr_record_of_loc].
  destruct (fexp prec emax (Zdigits2 M + E) - E) as [|p|p] eqn:Hn.
  - exists 0. cbn [fst snd shr_m shr_r].
    split; [lia|]. split; [lia|]. split; [now left|].
    split; [now rewrite Z.div_1_r | discriminate].
  - exists (Zpos p). cbn [fst snd].
    destruct (iter_pos_shifted p {| shr_m := M; shr_r := false; shr_s := false |} HM)
      as [Hm Hr].
    cbn [shr_m] in Hm, Hr.
    split; [lia|]. split; [lia|]. split; [right; lia|].
    split; [exact Hm|]. intros H. split; [lia|]. now rewrite <- Hr.
  - exists 0. cbn [fst snd shr_m shr_r].
    split; [lia|]. split; [lia|]. split; [now left|].
    split; [now rewrite Z.div_1_r | discriminate].
Qed.

Lemma round_nearest_even_bounds (mrs : shr_record) :
  shr_m mrs <= round_nearest_even (shr_m mrs) (loc_of_shr_record mrs)
            <= shr_m mrs + (if shr_r mrs then 1 else 0).
Proof.
  destruct mrs as [m [] []]; simpl; try destruct (Z.even m); lia.
Qed.

Lemma round_half_up (P n m1 m2 : Z) (r : bool) :
  0 <= P -> 0 <= n ->
  m1 = P / 2 ^ n ->
  (r = true -> 0 < n /\ Z.odd (P / 2 ^ (n - 1)) = true) ->
  m1 <= m2 <= m1 + (if r then 1 else 0) ->
  m2 * 2 ^ n <= P + 2 ^ n / 2.
Proof.
  intros HP Hn Hm1 Hr Hm2.
  assert (Hpow : 0 < 2 ^ n) by (apply Z.pow_pos_nonneg; lia).
  pose proof (Z.mul_div_le P (2 ^ n) Hpow) as Hfloor. rewrite <- Hm1 in Hfloor.
  assert (0 <= 2 ^ n / 2) by (apply Z.div_pos; lia).
  destruct r.
  - destruct (Hr eq_refl) as [Hn0 Hodd].
    set (h := 2 ^ (n - 1)) in *.
    assert (Hh : 0 < h) by (apply Z.pow_pos_nonneg; lia).
    assert (H2h : 2 ^ n = h * 2).
    { unfold h. replace n with (Z.succ (n - 1)) at 1 by lia.
      rewrite Z.pow_succ_r by lia. lia. }
    assert (Hhalf : 2 ^ n / 2 = h) by (rewrite H2h; apply Z.div_mul; lia).
    pose proof (Z.mul_div_le P h Hh) as Ha.
    assert (Hdd : P / h / 2 = m1) by (rewrite Z.div_div, <- H2h by lia; now rewrite Hm1).
    pose proof (Zmod_odd (P / h)) as Hmod. rewrite Hodd in Hmod.
    pose proof (Z.div_mod (P / h) 2 ltac:(lia)) as Hdm.
    rewrite Hmod, Hdd in Hdm. rewrite Hhalf, H2h. nia.
  - nia.
Qed.

Lemma fexp_small (x : Z) : x <= 4 -> fexp prec emax x <= -49.
Proof. unfold fexp, emin, prec, emax. lia. Qed.

Lemma below_16 (m K e : Z) :
  0 <= m -> K <= 16 -> e < 0 -> m < K * 2 ^ (- e) -> Zdigits2 m + e <= 4.
Proof.
  intros Hm HK He H.
  assert (Hp : 0 < 2 ^ (- e)) by (apply Z.pow_pos_nonneg; lia).
  assert (m < 2 ^ (4 - e)).
  { replace (4 - e) with (4 + - e) by lia. rewrite Z.pow_add_r by lia.
    change (2 ^ 4) with 16. nia. }
  pose proof (Zdigits2_le m (4 - e)). lia.
Qed.

(** Rounding an exact positive value that stays, with half a unit in the
    last place added, below the integer [K <= 16]: the result is a
    non-negative number below [K]. *)
Lemma binary_round_aux_below (p : positive) (E K : Z) :
  E < 0 -> 0 < K <= 16 ->
  (forall n, 0 <= n ->
     n = 0 \/ E + n = fexp prec emax (Zpos (digits2_pos p) + E) ->
     Zpos p + 2 ^ n / 2 < K * 2 ^ (- E)) ->
  binary_round_aux prec emax false (Zpos p) E loc_Exact = S754_zero false \/
  exists m3 e3,
    binary_round_aux prec emax false (Zpos p) E loc_Exact = S754_finite false m3 e3 /\
    e3 < 0 /\ Zpos m3 < K * 2 ^ (- e3).
Proof.
  intros HE HK Hbelow. unfold binary_round_aux.
  destruct (shr_fexp_exact (Zpos p) E ltac:(lia)) as (n1 & Hn1 & He1 & Hc1 & Hm1 & Hr1).
  destruct (shr_fexp prec emax (Zpos p) E loc_Exact) as [mrs1 e1].
  cbn [fst snd] in He1, Hm1, Hr1.
  pose proof (round_nearest_even_bounds mrs1) as Hround.
  set (m2 := round_nearest_even (shr_m mrs1) (loc_of_shr_record mrs1)) in *.
  pose proof (round_half_up (Zpos p) n1 (shr_m mrs1) m2 (shr_r mrs1)
                ltac:(lia) Hn1 Hm1 Hr1 Hround) as Hup.
  specialize (Hbelow n1 Hn1 Hc1).
  assert (Hpow1 : 0 < 2 ^ n1) by (apply Z.pow_pos_nonneg; lia).
  assert (Hm2 : 0 <= m2).
  { assert (0 <= shr_m mrs1) by (rewrite Hm1; apply Z.div_pos; lia). lia. }
  assert (He1neg : e1 < 0).
  { destruct Hc1 as [-> | Hc1]; [lia|].
    rewrite He1, Hc1. cbn [Zdigits2].
    assert (0 <= 2 ^ n1 / 2) by (apply Z.div_pos; lia).
    pose proof (below_16 (Zpos p) K E ltac:(lia) ltac:(lia) HE ltac:(lia)) as Hd.
    cbn [Zdigits2] in Hd. pose proof (fexp_small _ Hd). lia. }
  assert (Hm2K : m2 < K * 2 ^ (- e1)).
  { assert (Hsplit : 2 ^ (- E) = 2 ^ (- e1) * 2 ^ n1).
    { rewrite <- Z.pow_add_r by lia. f_equal. lia. }
    rewrite Hsplit in Hbelow.
    apply (Z.mul_lt_mono_pos_r (2 ^ n1)); [exact Hpow1|]. lia. }
  destruct (shr_fexp_exact m2 e1 Hm2) as (n2 & Hn2 & He2 & Hc2 & Hm3 & _).
  destruct (shr_fexp prec emax m2 e1 loc_Exact) as [mrs2 e2].
  cbn [fst snd] in He2, Hm3.
  assert (Hpow2 : 0 < 2 ^ n2) by (apply Z.pow_pos_nonneg; lia).
  assert (He2neg : e2 < 0).
  { destruct Hc2 as [-> | Hc2]; [lia|].
    rewrite He2, Hc2.
    pose proof (below_16 m2 K e1 Hm2 ltac:(lia) He1neg Hm2K) as Hd.
    pose proof (fexp_small _ Hd). lia. }
  assert (Hm3K : shr_m mrs2 < K * 2 ^ (- e2)).
  { rewrite Hm3. apply Z.div_lt_upper_bound; [exact Hpow2|].
    replace (2 ^ n2 * (K * 2 ^ (- e2))) with (K * (2 ^ (- e2) * 2 ^ n2)) by ring.
    rewrite <- Z.pow_add_r by lia.
    now replace (- e2 + n2) with (- e1) by lia. }
  assert (Hm3pos : 0 <= shr_m mrs2) by (rewrite Hm3; apply Z.div_pos; lia).
  destruct (shr_m mrs2) as [|m3|m3]; [now left | | lia].
  right. exists m3, e2.
  replace (e2 <=? emax - prec) with true
    by (symmetry; apply Z.leb_le; unfold emax, prec; lia).
  repeat split; assumption.
Qed.

Lemma pow2_half (n : Z) : 0 < n -> 2 ^ n / 2 = 2 ^ (n - 1).
Proof.
  intros Hn. replace n with (Z.succ (n - 1)) at 1 by lia.
  rewrite Z.pow_succ_r by lia. rewrite Z.mul_comm. apply Z.div_mul. lia.
Qed.

(** What [Math.random()] returns, taken apart: zero, or a positive
    [m * 2^e] with [m < 2^53] and [-1074 <= e <= -53]. *)
Lemma unit_interval_inv (r : number) :
  Spec.unit_interval r = true ->
  (exists s, r = S754_zero s) \/
  exists m e, r = S754_finite false m e /\ Zpos m < 2 ^ 53 /\ -1074 <= e <= -53.
Proof.
  unfold Spec.unit_interval. intros H.
  apply andb_true_iff in H as [H Hlt]. apply andb_true_iff in H as [Hvalid Hle].
  destruct r as [s|s| |s m e]; [left; now exists s | destruct s; discriminate | discriminate |].
  right. destruct s; [discriminate|]. exists m, e. split; [reflexivity|].
  cbn [valid_binary] in Hvalid. unfold bounded in Hvalid.
  apply andb_true_iff in Hvalid as [Hcanon _].
  unfold canonical_mantissa in Hcanon. apply Z.eqb_eq in Hcanon.
  unfold fexp, emin, prec, emax in Hcanon.
  pose proof (digits2_bounds m) as [Hlo Hhi].
  assert (Hd : Zpos (digits2_pos m) <= 53) by lia.
  assert (Hm : Zpos m < 2 ^ 53).
  { apply Z.lt_le_trans with (1 := Hhi). apply Z.pow_le_mono_r; lia. }
  split; [exact Hm|]. split; [lia|].
  change (of_Z 1) with (S754_finite false 4503599627370496 (-52)) in Hlt.
  unfold SFltb, SFcompare in Hlt.
  destruct (Z.compare_spec e (-52)) as [He|He|He]; [|lia|discriminate].
  exfalso. subst e.
  assert (Hd53 : Zpos (digits2_pos m) = 53) by lia.
  rewrite Hd53 in Hlo. change (2 ^ (53 - 1)) with 4503599627370496 in Hlo.
  destruct (Pos.compare_cont Eq m 4503599627370496) eqn:Hc; try discriminate.
  rewrite Pos.compare_cont_spec in Hc.
  destruct (m ?= 4503599627370496)%positive eqn:Hcmp; cbn [Pos.switch_Eq] in Hc;
    try discriminate.
  assert (Zpos m < 4503599627370496) by (apply Pos2Z.pos_lt_pos; exact Hcmp).
  lia.
Qed.

(** A number of [0, 1) times the integer [K = mK * 2^eK], [K <= 16]: the
    product, rounded, is still below [K]. *)
Lemma mul_unit_below (r : number) (mK : positive) (eK K : Z) :
  Spec.unit_interval r = true ->
  0 < K <= 16 -> -52 <= eK <= 0 -> 2 ^ 52 <= Zpos mK -> Zpos mK = K * 2 ^ (- eK) ->
  (exists s, mul r (S754_finite false mK eK) = S754_zero s) \/
  exists m3 e3,
    mul r (S754_finite false mK eK) = S754_finite false m3 e3 /\
    e3 < 0 /\ Zpos m3 < K * 2 ^ (- e3).
Proof.
  intros Hr HK HeK HmK52 HmK.
  destruct (unit_interval_inv r Hr) as [[s ->] | (m & e & -> & Hm & He)].
  - left. now exists (xorb s false).
  - unfold mul, SFmul. cbn [xorb].
    assert (Hpe : 2 ^ 53 <= 2 ^ (- e)) by (apply Z.pow_le_mono_r; lia).
    assert (Hsplit : K * 2 ^ (- (e + eK)) = Zpos mK * 2 ^ (- e)).
    { replace (- (e + eK)) with (- eK + - e) by lia.
      rewrite Z.pow_add_r by lia. rewrite HmK. ring. }
    destruct (binary_round_aux_below (m * mK) (e + eK) K) as [Hz | Hf];
      [lia | exact HK | | left; now exists false | right; exact Hf].
    intros n Hn Hcase. rewrite Hsplit, Pos2Z.inj_mul.
    assert (Hhalf : 2 ^ n / 2 < Zpos mK).
    { destruct (Z.eq_dec n 0) as [-> | Hn0]; [change (2 ^ 0 / 2) with 0; lia|].
      destruct Hcase as [? | Hcase]; [lia|].
      rewrite pow2_half by lia.
      pose proof (digits2_bounds (m * mK)) as [Hlo _].
      rewrite Pos2Z.inj_mul in Hlo.
      unfold fexp, emin, prec, emax in Hcase.
      destruct (Z.max_spec (Zpos (digits2_pos (m * mK)) + (e + eK) - 53) (3 - 1024 - 53))
        as [[_ Hmax] | [_ Hmax]]; rewrite Hmax in Hcase.
      - assert (n - 1 <= 51) by lia.
        assert (2 ^ (n - 1) <= 2 ^ 51) by (apply Z.pow_le_mono_r; lia).
        change (2 ^ 51) with 2251799813685248 in *.
        change (2 ^ 52) with 4503599627370496 in *. lia.
      - assert (Hd : Zpos (digits2_pos (m * mK)) - 1 = (n - 1) + 53) by lia.
        rewrite Hd, Z.pow_add_r in Hlo by lia.
        assert (0 < 2 ^ (n - 1)) by (apply Z.pow_pos_nonneg; lia).
        nia. }
    nia.
Qed.

Lemma floor_below (m3 : positive) (e3 K : Z) :
  e3 < 0 -> Zpos m3 < K * 2 ^ (- e3) ->
  exists q, 0 <= q < K /\
    floor (S754_finite false m3 e3) = if q =? 0 then S754_zero false else of_Z q.
Proof.
  intros He H. unfold floor.
  replace (0 <=? e3) with false by (symmetry; apply Z.leb_gt; exact He).
  assert (Hp : 0 < 2 ^ (- e3)) by (apply Z.pow_pos_nonneg; lia).
  exists (Zpos m3 / 2 ^ (- e3)). split; [|reflexivity]. split.
  - apply Z.div_pos; lia.
  - apply Z.div_lt_upper_bound; [exact Hp|]. lia.
Qed.

(** [Math.floor(Math.random() * K) + k] is one of the integers
    [k, ..., k + K - 1], once the additions [q + k] are known to be exact. *)
Lemma random_figure_range (r : number) (mK : positive) (eK K k : Z) :
  Spec.unit_interval r = true ->
  of_Z K = S754_finite false mK eK ->
  0 < K <= 16 -> -52 <= eK <= 0 -> 2 ^ 52 <= Zpos mK -> Zpos mK = K * 2 ^ (- eK) ->
  (forall s, add (S754_zero s) (of_Z k) = of_Z k) ->
  (forall q, 0 < q < K -> add (of_Z q) (of_Z k) = of_Z (q + k)) ->
  Spec.integer_between k (k + K - 1) (FRAAtlasApp.random_figure r K k).
Proof.
  intros Hr HofK HK HeK HmK52 HmK Hzero Hadd.
  unfold FRAAtlasApp.random_figure. rewrite HofK.
  destruct (mul_unit_below r mK eK K Hr HK HeK HmK52 HmK)
    as [[s ->] | (m3 & e3 & -> & He3 & Hm3)].
  - exists k. split; [lia|]. cbn [floor]. apply Hzero.
  - destruct (floor_below m3 e3 K He3 Hm3) as (q & Hq & ->).
    exists (q + k). split; [lia|].
    destruct (Z.eqb_spec q 0) as [-> | Hq0]; [apply Hzero|].
    apply Hadd. lia.
Qed.

Ltac exact_sums :=
  let q := fresh "q" in
  let Hq := fresh "Hq" in
  intros q Hq;
  assert (q = 1 \/ q = 2 \/ q = 3 \/ q = 4 \/ q = 5 \/ q = 6 \/ q = 7 \/ q = 8 \/
          q = 9 \/ q = 10 \/ q = 11) as Hcases by lia;
  repeat (destruct Hcases as [-> | Hcases]; [vm_compute; reflexivity|]);
  subst q; vm_compute; reflexivity.

(** C7. Whatever number of [0, 1) the random source returns, the three
    alert figures are integers in their ranges: deforestation alerts in
    [3, 10], high-risk areas in [2, 6], NDVI violations in [5, 16]. *)
Theorem alert_figures_in_range (counts : list string) (r1 r2 r3 : number) :
  Spec.unit_interval r1 = true ->
  Spec.unit_interval r2 = true ->
  Spec.unit_interval r3 = true ->
  let data := FRAAtlasApp.generateReportData counts r1 r2 r3 in
  Spec.integer_between 3 10 (ReportData.deforestationAlerts data) /\
  Spec.integer_between 2 6 (ReportData.highRiskAreas data) /\
  Spec.integer_between 5 16 (ReportData.ndviViolations data).
Proof.
  intros H1 H2 H3 data. unfold data. cbn [FRAAtlasApp.generateReportData
    ReportData.deforestationAlerts ReportData.highRiskAreas ReportData.ndviViolations].
  split; [|split].
  - apply (random_figure_range r1 4503599627370496 (-49) 8 3 H1);
      [reflexivity | lia | lia | vm_compute; discriminate | reflexivity
      | intros []; reflexivity | exact_sums].
  - apply (random_figure_range r2 5629499534213120 (-50) 5 2 H2);
      [reflexivity | lia | lia | vm_compute; discriminate | reflexivity
      | intros []; reflexivity | exact_sums].
  - apply (random_figure_range r3 6755399441055744 (-49) 12 5 H3);
      [reflexivity | lia | lia | vm_compute; discriminate | reflexivity
      | intros []; reflexivity | exact_sums].
Qed.

Lemma alert_figures_in_range_witness :
  Spec.integer_between 3 10
    (ReportData.deforestationAlerts
       (FRAAtlasApp.generateReportData [] Spec.below_one Spec.below_one Spec.below_one)) /\
  Spec.integer_between 2 6
    (ReportData.highRiskAreas
       (FRAAtlasApp.generateReportData [] Spec.below_one Spec.below_one Spec.below_one)) /\
  Spec.integer_between 5 16
    (ReportData.ndviViolations
       (FRAAtlasApp.generateReportData [] Spec.below_one Spec.below_one Spec.below_one)).
Proof.
  apply (alert_figures_in_range [] Spec.below_one Spec.below_one Spec.below_one);
    reflexivity.
Defined.

(** ** Reading a counter back *)

Lemma parse_digits_step (c : ascii) (s : string) (acc : option Z) (k : Z) :
  digit_value c = Some k -> (k <? 10) = true ->
  parse_digits 10 (String c s) acc
  = parse_digits 10 s (Some (match acc with Some a => a | None => 0 end * 10 + k)).
Proof.
  intros Hc Hk. cbn [parse_digits]. now rewrite Hc, Hk.
Qed.

Ltac read_digit :=
  cbn [NilEmpty.string_of_uint Pos.of_uint_acc Pos.of_uint];
  erewrite parse_digits_step by reflexivity;
  match goal with
  | |- parse_digits _ _ (Some (_ + ?k)) = _ =>
      let k' := eval vm_compute in k in change k with k'
  end.

Lemma parse_digits_acc (d : Decimal.uint) (acc : positive) :
  parse_digits 10 (NilEmpty.string_of_uint d) (Some (Zpos acc))
  = Some (Zpos (Pos.of_uint_acc d acc)).
Proof.
  revert acc. induction d; intros acc; [reflexivity| ..]; read_digit;
    match goal with
    | |- parse_digits _ _ (Some ?z) = Some (Zpos (Pos.of_uint_acc _ ?p)) =>
        replace z with (Zpos p) by lia
    end; apply IHd.
Qed.

Lemma parse_digits_zero (d : Decimal.uint) :
  parse_digits 10 (NilEmpty.string_of_uint d) (Some 0)
  = Some (Z.of_N (Pos.of_uint d)).
Proof.
  induction d; [reflexivity| ..]; read_digit; [exact IHd| ..]; apply parse_digits_acc.
Qed.

Lemma parse_digits_numeral (d : Decimal.uint) :
  d <> Decimal.Nil ->
  parse_digits 10 (NilEmpty.string_of_uint d) None = Some (Z.of_N (Pos.of_uint d)).
Proof.
  destruct d; intros H; [congruence| ..]; read_digit;
    [apply parse_digits_zero| ..]; apply parse_digits_acc.
Qed.

Lemma parseInt_numeral (d : Decimal.uint) :
  d <> Decimal.Nil ->
  parseInt (NilEmpty.string_of_uint d) = of_Z (Z.of_N (Pos.of_uint d)).
Proof.
  intros H. pose proof (parse_digits_numeral d H) as Hp.
  assert (Hshape : parseInt (NilEmpty.string_of_uint d) =
            match parse_digits 10 (NilEmpty.string_of_uint d) None with
            | None => NaN
            | Some 0 => S754_zero false
            | Some z => of_Z z
            end).
  { destruct d as [|d|d|d|d|d|d|d|d|d|d]; [congruence| ..];
      try reflexivity.
    destruct d; reflexivity. }
  rewrite Hshape, Hp. destruct (Z.of_N (Pos.of_uint d)); reflexivity.
Qed.

(** [parseInt] reads back the decimal numeral of a whole number. *)
Lemma parseInt_digits (z : Z) : 0 <= z -> parseInt (digits z) = of_Z z.
Proof.
  intros Hz. unfold digits.
  assert (Hn : N.to_uint (Z.to_N z) <> Decimal.Nil).
  { destruct (Z.to_N z) as [|p]; [discriminate|]. apply Unsigned.to_uint_nonnil. }
  assert (Hs : NilZero.string_of_uint (N.to_uint (Z.to_N z))
               = NilEmpty.string_of_uint (N.to_uint (Z.to_N z))).
  { destruct (N.to_uint (Z.to_N z)); [congruence| ..]; reflexivity. }
  rewrite Hs, (parseInt_numeral _ Hn).
  change (Pos.of_uint (N.to_uint (Z.to_N z))) with (N.of_uint (N.to_uint (Z.to_N z))).
  rewrite DecimalN.Unsigned.of_to. now rewrite Z2N.id.
Qed.

(** ** Whole numbers below 2^53 *)

Lemma Zdigits2_unique (m d : Z) :
  0 < m -> 2 ^ (d - 1) <= m < 2 ^ d -> Zdigits2 m = d.
Proof.
  intros Hm [Hlo Hhi]. destruct m as [|p|p]; try lia. cbn [Zdigits2].
  pose proof (digits2_bounds p) as [Hlo' Hhi'].
  assert (0 < d).
  { destruct (Z.le_gt_cases d 0); [|assumption].
    assert (2 ^ d <= 2 ^ 0) by (apply Z.pow_le_mono_r; lia). simpl in *; lia. }
  assert (Zpos (digits2_pos p) - 1 < d).
  { apply (Z.pow_lt_mono_r_iff 2); lia. }
  assert (d - 1 < Zpos (digits2_pos p)).
  { apply (Z.pow_lt_mono_r_iff 2); lia. }
  lia.
Qed.

Lemma Zdigits2_shift (z k : Z) :
  0 < z -> 0 <= k -> Zdigits2 (z * 2 ^ k) = Zdigits2 z + k.
Proof.
  intros Hz Hk.
  assert (Hp : 0 < 2 ^ k) by (apply Z.pow_pos_nonneg; lia).
  apply Zdigits2_unique; [nia|].
  destruct z as [|p|p]; try lia. cbn [Zdigits2].
  pose proof (digits2_bounds p) as [Hlo Hhi].
  replace (Zpos (digits2_pos p) + k - 1) with (Zpos (digits2_pos p) - 1 + k) by lia.
  rewrite !Z.pow_add_r by lia. nia.
Qed.

Lemma shr_fexp_amount (M E : Z) :
  0 <= M ->
  let n := Z.max 0 (fexp prec emax (Zdigits2 M + E) - E) in
  snd (shr_fexp prec emax M E loc_Exact) = E + n /\
  shr_m (fst (shr_fexp prec emax M E loc_Exact)) = M / 2 ^ n /\
  (shr_r (fst (shr_fexp prec emax M E loc_Exact)) = true ->
   0 < n /\ Z.odd (M / 2 ^ (n - 1)) = true).
Proof.
  intros HM n. unfold n, shr_fexp, shr. cbn [shr_record_of_loc].
  destruct (fexp prec emax (Zdigits2 M + E) - E) as [|p|p] eqn:Hn.
  - cbn [fst snd shr_m shr_r Z.max]. rewrite Z.div_1_r.
    split; [lia|]. split; [reflexivity | discriminate].
  - replace (Z.max 0 (Zpos p)) with (Zpos p) by lia. cbn [fst snd].
    destruct (iter_pos_shifted p {| shr_m := M; shr_r := false; shr_s := false |} HM)
      as [Hm Hr].
    cbn [shr_m] in Hm, Hr. split; [reflexivity|]. split; [exact Hm|].
    intros H. split; [lia|]. now rewrite <- Hr.
  - replace (Z.max 0 (Zneg p)) with 0 by lia.
    cbn [fst snd shr_m shr_r]. rewrite Z.div_1_r.
    split; [lia|]. split; [reflexivity | discriminate].
Qed.

Lemma fexp_digits (d : Z) : 1 <= d -> fexp prec emax d = d - 53.
Proof. unfold fexp, emin, prec, emax. lia. Qed.

Lemma Zdigits2_range (z : Z) : 0 < z < 2 ^ 53 -> 1 <= Zdigits2 z <= 53.
Proof.
  intros Hz. split; [destruct z; cbn; lia|]. apply Zdigits2_le; lia.
Qed.

(** Rounding a value that is a whole number below 2^53 changes nothing. *)
Lemma binary_round_aux_exact (mz : positive) (ez z : Z) :
  0 < z < 2 ^ 53 ->
  ez <= Zdigits2 z - 53 ->
  Zpos mz = z * 2 ^ (- ez) ->
  binary_round_aux prec emax false (Zpos mz) ez loc_Exact = Page.whole z.
Proof.
  intros Hz Hez Hmz.
  pose proof (Zdigits2_range z Hz) as Hd. set (d := Zdigits2 z) in *.
  assert (Hdm : Zdigits2 (Zpos mz) + ez = d).
  { rewrite Hmz, Zdigits2_shift by lia. fold d. lia. }
  set (n := d - 53 - ez).
  assert (Hn : 0 <= n) by (unfold n; lia).
  assert (Hpn : 0 < 2 ^ n) by (apply Z.pow_pos_nonneg; lia).
  set (m1 := z * 2 ^ (53 - d)).
  assert (Hpk : 0 < 2 ^ (53 - d)) by (apply Z.pow_pos_nonneg; lia).
  assert (Hm1 : 0 < m1) by (unfold m1; nia).
  assert (Hsplit : Zpos mz = m1 * 2 ^ n).
  { rewrite Hmz. unfold m1. rewrite <- Z.mul_assoc, <- Z.pow_add_r by lia.
    do 2 f_equal. unfold n. lia. }
  unfold binary_round_aux.
  destruct (shr_fexp_amount (Zpos mz) ez ltac:(lia)) as (He1 & Hs1 & Hr1).
  rewrite Hdm, (fexp_digits d) in He1, Hs1, Hr1 by lia.
  replace (Z.max 0 (d - 53 - ez)) with n in He1, Hs1, Hr1 by (unfold n; lia).
  destruct (shr_fexp prec emax (Zpos mz) ez loc_Exact) as [mrs1 e1].
  cbn [fst snd] in He1, Hs1, Hr1.
  rewrite Hsplit, Z.div_mul in Hs1 by lia.
  assert (Hr : shr_r mrs1 = false).
  { destruct (shr_r mrs1); [|reflexivity]. destruct (Hr1 eq_refl) as [Hn0 Hodd].
    exfalso. rewrite Hsplit in Hodd.
    replace (2 ^ n) with (2 * 2 ^ (n - 1)) in Hodd.
    - rewrite Z.mul_assoc, Z.div_mul in Hodd by (apply Z.pow_nonzero; lia).
      rewrite Z.mul_comm, Z.odd_mul in Hodd. discriminate.
    - rewrite <- Z.pow_succ_r by lia. f_equal. lia. }
  pose proof (round_nearest_even_bounds mrs1) as Hround.
  rewrite Hr in Hround.
  replace (round_nearest_even (shr_m mrs1) (loc_of_shr_record mrs1)) with m1 by lia.
  assert (Hdm1 : Zdigits2 m1 + e1 = d).
  { unfold m1. rewrite Zdigits2_shift by lia. fold d. unfold n in He1. lia. }
  destruct (shr_fexp_amount m1 e1 ltac:(lia)) as (He2 & Hs2 & _).
  rewrite Hdm1, (fexp_digits d) in He2, Hs2 by lia.
  replace (Z.max 0 (d - 53 - e1)) with 0 in He2, Hs2 by (unfold n in He1; lia).
  destruct (shr_fexp prec emax m1 e1 loc_Exact) as [mrs2 e2].
  cbn [fst snd] in He2, Hs2. rewrite Z.div_1_r in Hs2. rewrite Hs2.
  unfold Page.whole. fold d. fold m1.
  destruct m1 as [|q|q]; try lia.
  replace (e2 <=? emax - prec) with true
    by (symmetry; apply Z.leb_le; unfold emax, prec, n in *; lia).
  cbn [Z.to_pos]. f_equal. unfold n in He1. lia.
Qed.

Lemma iter_xO_value (m k : positive) :
  Zpos (Pos.iter xO m k) = Zpos m * 2 ^ Zpos k.
Proof.
  induction k as [|k IH] using Pos.peano_ind.
  - cbn. lia.
  - rewrite Pos.iter_succ, Pos2Z.inj_succ, Z.pow_succ_r by lia.
    rewrite Pos2Z.inj_xO, IH. ring.
Qed.

Lemma shl_align_value (m : positive) (e e' : Z) :
  e' <= e ->
  Zpos (fst (shl_align m e e')) = Zpos m * 2 ^ (e - e') /\
  snd (shl_align m e e') = e'.
Proof.
  intros He. unfold shl_align.
  destruct (e' - e) as [|k|k] eqn:Hk; cbn [fst snd]; try lia.
  - replace (e - e') with 0 by lia. split; lia.
  - rewrite iter_xO_value. split; [|reflexivity]. do 2 f_equal. lia.
Qed.

Lemma binary_normalize_exact (M : positive) (E z : Z) :
  0 < z < 2 ^ 53 -> E <= 0 -> Zpos M = z * 2 ^ (- E) ->
  binary_normalize prec emax (Zpos M) E false = Page.whole z.
Proof.
  intros Hz HE HM. pose proof (Zdigits2_range z Hz) as Hd.
  cbn [binary_normalize]. unfold binary_round.
  assert (Hdm : Zpos (digits2_pos M) + E = Zdigits2 z).
  { change (Zpos (digits2_pos M)) with (Zdigits2 (Zpos M)).
    rewrite HM, Zdigits2_shift by lia. lia. }
  rewrite Hdm, fexp_digits by lia.
  destruct (Z.le_gt_cases (Zdigits2 z - 53) E) as [Hle | Hgt].
  - pose proof (shl_align_value M E (Zdigits2 z - 53) Hle) as [Hv He].
    destruct (shl_align M E (Zdigits2 z - 53)) as [mz ez]. cbn [fst snd] in Hv, He.
    subst ez. apply binary_round_aux_exact; [exact Hz | lia|].
    rewrite Hv, HM, <- Z.mul_assoc, <- Z.pow_add_r by lia. do 2 f_equal. lia.
  - assert (Hsame : shl_align M E (Zdigits2 z - 53) = (M, E)).
    { unfold shl_align. destruct (Zdigits2 z - 53 - E) eqn:Hk; try reflexivity. lia. }
    rewrite Hsame. apply binary_round_aux_exact; [exact Hz | lia | exact HM].
Qed.

Lemma of_Z_whole (z : Z) : 0 < z < 2 ^ 53 -> of_Z z = Page.whole z.
Proof.
  intros Hz. unfold of_Z, dyadic. destruct z as [|p|p]; try lia.
  apply binary_normalize_exact; [exact Hz | lia|]. cbn. lia.
Qed.

Lemma add_whole (a b : Z) :
  0 < a -> 0 < b -> a + b < 2 ^ 53 ->
  add (Page.whole a) (Page.whole b) = Page.whole (a + b).
Proof.
  intros Ha Hb Hab.
  pose proof (Zdigits2_range a ltac:(lia)) as Hda.
  pose proof (Zdigits2_range b ltac:(lia)) as Hdb.
  unfold add, Page.whole, SFadd. cbn [cond_Zopp].
  set (ea := Zdigits2 a - 53). set (eb := Zdigits2 b - 53).
  assert (Hpa : 0 < a * 2 ^ (53 - Zdigits2 a))
    by (assert (0 < 2 ^ (53 - Zdigits2 a)) by (apply Z.pow_pos_nonneg; lia); nia).
  assert (Hpb : 0 < b * 2 ^ (53 - Zdigits2 b))
    by (assert (0 < 2 ^ (53 - Zdigits2 b)) by (apply Z.pow_pos_nonneg; lia); nia).
  destruct (shl_align_value (Z.to_pos (a * 2 ^ (53 - Zdigits2 a))) ea (Z.min ea eb)
              ltac:(lia)) as [Hva _].
  destruct (shl_align_value (Z.to_pos (b * 2 ^ (53 - Zdigits2 b))) eb (Z.min ea eb)
              ltac:(lia)) as [Hvb _].
  rewrite Z2Pos.id in Hva, Hvb by assumption.
  rewrite <- Z.mul_assoc, <- Z.pow_add_r in Hva, Hvb by (unfold ea, eb; lia).
  replace (53 - Zdigits2 a + (ea - Z.min ea eb)) with (- Z.min ea eb) in Hva
    by (unfold ea; lia).
  replace (53 - Zdigits2 b + (eb - Z.min ea eb)) with (- Z.min ea eb) in Hvb
    by (unfold eb; lia).
  change (Zpos ?x + Zpos ?y) with (Zpos (x + y)).
  apply binary_normalize_exact; [lia | unfold ea, eb; lia|].
  rewrite Pos2Z.inj_add, Hva, Hvb. ring.
Qed.

(** Adding whole numbers is exact as long as the sum stays below 2^53. *)
Lemma add_of_Z (a b : Z) :
  0 <= a -> 0 <= b -> a + b < 2 ^ 53 ->
  add (of_Z a) (of_Z b) = of_Z (a + b).
Proof.
  intros Ha Hb Hab.
  destruct (Z.eq_dec a 0) as [-> | Ha0]; destruct (Z.eq_dec b 0) as [-> | Hb0].
  - reflexivity.
  - rewrite (of_Z_whole b) by lia. cbn [Z.add]. rewrite (of_Z_whole b) by lia. reflexivity.
  - rewrite Z.add_0_r, (of_Z_whole a) by lia. reflexivity.
  - rewrite (of_Z_whole a), (of_Z_whole b), (of_Z_whole (a + b)) by lia.
    apply add_whole; lia.
Qed.

Lemma digits_not_empty (z : Z) : (digits z =? "")%string = false.
Proof.
  unfold digits. destruct (N.to_uint (Z.to_N z)); reflexivity.
Qed.

Lemma read_written_counter (element : option string) (n : nat) :
  parseInt (Dashboard.text_or_zero (Dashboard.write (digits (Z.of_nat n)) element))
  = Page.counter_value element n.
Proof.
  destruct element as [t|]; cbn [Dashboard.write Dashboard.text_or_zero Page.counter_value].
  - rewrite digits_not_empty. apply parseInt_digits. lia.
  - reflexivity.
Qed.

(** X1. Reading the statistics right after [updateCountElements] gives back,
    for every counter element of the page, the count that was written; a
    counter whose element is missing reads as 0. *)
Theorem counters_read_back (counts : Counts.t) (s : State) :
  fst (Dashboard.getCurrentStats (snd (Dashboard.updateCountElements counts s))) =
  Normal
    {| Dashboard.Stats.approved :=
         Page.counter_value (Elements.approved (elements s)) (Counts.approved counts);
       Dashboard.Stats.pending :=
         Page.counter_value (Elements.pending (elements s)) (Counts.pending counts);
       Dashboard.Stats.review :=
         Page.counter_value (Elements.review (elements s)) (Counts.review counts);
       Dashboard.Stats.rejected :=
         Page.counter_value (Elements.rejected (elements s)) (Counts.rejected counts) |}.
Proof.
  unfold Dashboard.getCurrentStats, Dashboard.updateCountElements, set_elements, modify, reads.
  cbn [fst snd elements Elements.approved Elements.pending Elements.review Elements.rejected].
  now rewrite !read_written_counter.
Qed.

(** ** Outcomes of [updateFromData] *)

Lemma visit_unlabelled (acc : Dashboard.Totals) (record : Feature) :
  Spec.labelled record = false -> Dashboard.visit acc record = Throw TypeError.
Proof.
  unfold Spec.labelled, Spec.has_properties, Spec.fields, Dashboard.visit, or.
  destruct (properties record) as [props|]; [|reflexivity]. cbn [andb].
  destruct (status props) as [| |b|x|t|o]; try discriminate; try reflexivity;
    intros H; apply negb_false_iff in H; now rewrite H.
Qed.

Lemma forEach_unlabelled (batch : list Feature) :
  forallb Spec.labelled batch = false ->
  forall acc, Dashboard.forEach batch acc = Throw TypeError.
Proof.
  induction batch as [|record batch IH]; intros H acc; [discriminate|].
  cbn [forallb] in H. cbn [Dashboard.forEach].
  destruct (Spec.labelled record) eqn:Hl.
  - rewrite (visit_labelled acc record Hl). apply IH. exact H.
  - now rewrite (visit_unlabelled acc record Hl).
Qed.

(** X2. A record whose status is truthy and not a text (a number, [true],
    an array, an object), or that has no properties object, makes
    [updateFromData] throw a TypeError inside the loop, before anything is
    written: the state is exactly what it was. *)
Theorem unlabelled_status_aborts_update (now : Date) (batch : list Feature) (s : State) :
  forallb Spec.labelled batch = false ->
  Dashboard.updateFromData now batch s = (Throw TypeError, s).
Proof.
  intros H. unfold Dashboard.updateFromData, bind, lift.
  now rewrite (forEach_unlabelled batch H).
Qed.

Lemma unlabelled_status_aborts_update_witness :
  Dashboard.updateFromData Spec.morning [Spec.record "Approved" (of_Z 1) (of_Z 1); Page.coded]
    Spec.page = (Throw TypeError, Spec.page).
Proof.
  apply (unlabelled_status_aborts_update Spec.morning
           [Spec.record "Approved" (of_Z 1) (of_Z 1); Page.coded] Spec.page).
  reflexivity.
Defined.

Lemma plus_Str (t : string) (v : value) : Page.is_str (plus (Str t) v) = true.
Proof. unfold plus. cbn [numeric]. reflexivity. Qed.

Lemma plus_area (x : number) (record : Feature) :
  plus (Num x) (or (area_hectares (Spec.fields record)) (Num (S754_zero false)))
  = if Page.numeric_area record
    then Num (add x (match numeric (or (area_hectares (Spec.fields record)) (Num (S754_zero false)))
                     with Some y => y | None => S754_zero false end))
    else Str (number_to_string x ++ toString (area_hectares (Spec.fields record))).
Proof.
  unfold Page.numeric_area, or.
  destruct (area_hectares (Spec.fields record)) as [| |b|y|t|o]; cbn [truthy];
    try reflexivity.
  - destruct b; reflexivity.
  - destruct (negb (is_nan y || is_zero y)); reflexivity.
  - destruct (String.eqb_spec t ""); cbn [negb]; reflexivity.
Qed.

Lemma forEach_area (batch : list Feature) :
  forallb Spec.labelled batch = true ->
  forall acc,
    Page.is_num (Dashboard.totalArea acc) || Page.is_str (Dashboard.totalArea acc) = true ->
    exists totals,
      Dashboard.forEach batch acc = Normal totals /\
      Page.is_num (Dashboard.totalArea totals)
      = Page.is_num (Dashboard.totalArea acc) && forallb Page.numeric_area batch.
Proof.
  induction batch as [|record batch IH]; intros H acc Hacc.
  - exists acc. split; [reflexivity|]. cbn [forallb]. now rewrite andb_true_r.
  - cbn [forallb] in H. apply andb_true_iff in H as [Hl Hb].
    cbn [Dashboard.forEach forallb]. rewrite (visit_labelled acc record Hl).
    match goal with |- exists t, Dashboard.forEach batch ?a = _ /\ _ =>
      destruct (IH Hb a) as [totals [Hrun Hnum]] end.
    + cbn [Dashboard.totalArea].
      destruct (Dashboard.totalArea acc) as [| |b|x|t|o]; try discriminate.
      * rewrite plus_area. destruct (Page.numeric_area record); reflexivity.
      * reflexivity.
    + exists totals. split; [exact Hrun|]. rewrite Hnum. cbn [Dashboard.totalArea].
      destruct (Dashboard.totalArea acc) as [| |b|x|t|o]; try discriminate.
      * rewrite plus_area. destruct (Page.numeric_area record); reflexivity.
      * reflexivity.
Qed.




Lemma present_write (text : string) (element : option string) :
  Page.present (Dashboard.write text element) = Page.present element.
Proof. destruct element; reflexivity. Qed.

Lemma written_present (counts : Counts.t) (now : Date) (n : nat) (s : State) :
  Page.present (Elements.approved (Page.written counts now n s))
    = Page.present (Elements.approved (elements s)) /\
  Page.present (Elements.pending (Page.written counts now n s))
    = Page.present (Elements.pending (elements s)) /\
  Page.present (Elements.review (Page.written counts now n s))
    = Page.present (Elements.review (elements s)) /\
  Page.present (Elements.rejected (Page.written counts now n s))
    = Page.present (Elements.rejected (elements s)) /\
  Page.present (Elements.lastUpdate (Page.written counts now n s))
    = Page.present (Elements.lastUpdate (elements s)) /\
  Page.present (Elements.coverage (Page.written counts now n s))
    = Page.present (Elements.coverage (elements s)).
Proof.
  unfold Page.written, Dashboard.updateCountElements, Dashboard.updateLastUpdate,
    Dashboard.updateCoverageInfo, bind, set_elements, modify.
  cbn [fst snd elements Elements.approved Elements.pending Elements.review
       Elements.rejected Elements.lastUpdate Elements.coverage].
  repeat (split; [apply present_write|]).
  destruct (Elements.coverage (elements s)) as [t|]; [|reflexivity].
  destruct (includes t "Coverage:"); reflexivity.
Qed.

Lemma updateFromData_state (now : Date) (batch : list Feature) (s : State) :
  snd (Dashboard.updateFromData now batch s) = s \/
  exists totals lines,
    (List.length lines <= 1)%nat /\
    snd (Dashboard.updateFromData now batch s) =
      {| elements := Page.written (Dashboard.counts totals) now (List.length batch) s;
         console := (console s ++ lines)%list;
         loadedData := loadedData s |}.
Proof.
  unfold Dashboard.updateFromData, bind, lift.
  destruct (Dashboard.forEach batch Dashboard.initial) as [totals|e]; [|now left].
  right. exists totals.
  destruct (Dashboard.totalArea totals);
    try (exists []; split; [cbn; lia | rewrite app_nil_r; reflexivity]).
  eexists [_]. split; [cbn; lia | reflexivity].
Qed.

(** X5. Whatever the batch, [updateFromData] leaves [loadedData] alone,
    neither adds nor removes a page element, and logs at most one line. *)
Theorem update_keeps_frame (now : Date) (batch : list Feature) (s : State) :
  let s' := snd (Dashboard.updateFromData now batch s) in
  loadedData s' = loadedData s /\
  Page.present (Elements.approved (elements s')) = Page.present (Elements.approved (elements s)) /\
  Page.present (Elements.pending (elements s')) = Page.present (Elements.pending (elements s)) /\
  Page.present (Elements.review (elements s')) = Page.present (Elements.review (elements s)) /\
  Page.present (Elements.rejected (elements s')) = Page.present (Elements.rejected (elements s)) /\
  Page.present (Elements.lastUpdate (elements s')) = Page.present (Elements.lastUpdate (elements s)) /\
  Page.present (Elements.coverage (elements s')) = Page.present (Elements.coverage (elements s)) /\
  exists lines, console s' = (console s ++ lines)%list /\ (List.length lines <= 1)%nat.
Proof.
  intros s'. unfold s'.
  destruct (updateFromData_state now batch s) as [-> | (totals & lines & Hlen & ->)].
  - repeat split. exists []. split; [now rewrite app_nil_r | cbn; lia].
  - cbn [elements console loadedData].
    pose proof (written_present (Dashboard.counts totals) now (List.length batch) s) as Hp.
    split; [reflexivity|]. repeat (split; [apply Hp|]).
    exists lines. now split.
Qed.

Lemma read_written (counts : Counts.t) (now : Date) (n : nat) (s : State)
  (lines : list string) (data : list Feature) :
  fst (Dashboard.getCurrentStats
         {| elements := Page.written counts now n s; console := lines; loadedData := data |}) =
  Normal
    {| Dashboard.Stats.approved :=
         Page.counter_value (Elements.approved (elements s)) (Counts.approved counts);
       Dashboard.Stats.pending :=
         Page.counter_value (Elements.pending (elements s)) (Counts.pending counts);
       Dashboard.Stats.review :=
         Page.counter_value (Elements.review (elements s)) (Counts.review counts);
       Dashboard.Stats.rejected :=
         Page.counter_value (Elements.rejected (elements s)) (Counts.rejected counts) |}.
Proof.
  unfold Dashboard.getCurrentStats, reads, Page.written, Dashboard.updateCountElements,
    Dashboard.updateLastUpdate, Dashboard.updateCoverageInfo, bind, set_elements, modify.
  cbn [fst snd elements Elements.approved Elements.pending Elements.review Elements.rejected].
  now rewrite !read_written_counter.
Qed.



(** X7. [resetToDefaults] does not throw, logs its line, and leaves the
    counters reading 234, 156, 43 and 12 (0 where the element is
    missing). *)
Theorem reset_then_read (now : Date) (s : State) :
  fst (Dashboard.resetToDefaults now s) = Normal tt /\
  fst (Dashboard.getCurrentStats (snd (Dashboard.resetToDefaults now s))) =
  Normal
    {| Dashboard.Stats.approved := Page.counter_value (Elements.approved (elements s)) 234;
       Dashboard.Stats.pending := Page.counter_value (Elements.pending (elements s)) 156;
       Dashboard.Stats.review := Page.counter_value (Elements.review (elements s)) 43;
       Dashboard.Stats.rejected := Page.counter_value (Elements.rejected (elements s)) 12 |} /\
  console (snd (Dashboard.resetToDefaults now s))
  = (console s ++ ["📊 Dashboard reset to default values"])%list.
Proof.
  split; [reflexivity|]. split; [|reflexivity].
  unfold Dashboard.resetToDefaults, Dashboard.getCurrentStats, reads,
    Dashboard.updateCountElements, Dashboard.updateLastUpdate, log, bind, set_elements, modify.
  cbn [fst snd elements Elements.approved Elements.pending Elements.review Elements.rejected].
  rewrite !read_written_counter. reflexivity.
Qed.

(** ** The coverage paragraph *)

Lemma replace_coverage_cases (s by_ : string) :
  (exists before tail,
      s = before ++ tail /\
      Dashboard.coverage_at tail = true /\
      (forall u v, before = u ++ v -> v <> "" -> Dashboard.coverage_at (v ++ tail) = false) /\
      Dashboard.replace_coverage s by_ = before ++ by_)
  \/
  ((forall u v, s = u ++ v -> Dashboard.coverage_at v = false) /\
   Dashboard.replace_coverage s by_ = s).
Proof.
  induction s as [|c s IH].
  - right. split; [|reflexivity].
    intros u v H. destruct u; [|discriminate]. simpl in H. now subst v.
  - cbn [Dashboard.replace_coverage].
    destruct (Dashboard.coverage_at (String c s)) eqn:Hc.
    + left. exists "", (String c s). repeat split; [exact Hc|].
      intros u v H Hv. destruct u; [simpl in H; congruence | discriminate].
    + destruct IH as [(before & tail & -> & Ht & Hleft & ->) | [Hnone ->]].
      * left. exists (String c before), tail. repeat split; [exact Ht|].
        intros u v H Hv. destruct u as [|b u].
        -- simpl in H. subst v. exact Hc.
        -- injection H as _ H. now apply (Hleft u v).
      * right. split; [|reflexivity].
        intros u v H. destruct u as [|b u].
        -- simpl in H. now subst v.
        -- injection H as _ H. now apply (Hnone u v).
Qed.

Lemma startsWith_append_lacks (c : ascii) (T p v : string) :
  Page.lacks c p = true ->
  startsWith (v ++ String c T) p = startsWith v p.
Proof.
  revert v. induction p as [|a p IH]; intros v Hp; [reflexivity|].
  cbn [Page.lacks] in Hp. apply andb_true_iff in Hp as [Ha Hp].
  apply negb_true_iff in Ha.
  destruct v as [|b v]; cbn [append startsWith].
  - now rewrite Ha.
  - now rewrite (IH v Hp).
Qed.

Lemma includes_append_head (c a : ascii) (T p w : string) :
  Page.lacks c p = true ->
  includes (w ++ String c T) (String a p)
  = includes w (String a p) || includes (String c T) (String a p).
Proof.
  intros Hp. induction w as [|b w IH].
  - reflexivity.
  - change (includes (String b w ++ String c T) (String a p))
      with (startsWith (String b (w ++ String c T)) (String a p)
            || includes (w ++ String c T) (String a p)).
    change (includes (String b w) (String a p))
      with (startsWith (String b w) (String a p) || includes w (String a p)).
    rewrite IH. cbn [startsWith]. rewrite (startsWith_append_lacks c T p w Hp).
    now rewrite orb_assoc.
Qed.

Lemma includes_lacks (a : ascii) (p s x : string) :
  Page.lacks a s = true ->
  includes (s ++ x) (String a p) = includes x (String a p).
Proof.
  induction s as [|b s IH]; intros Hs; [reflexivity|].
  cbn [Page.lacks] in Hs. apply andb_true_iff in Hs as [Hb Hs].
  apply negb_true_iff in Hb.
  change (includes (String b s ++ x) (String a p))
    with (startsWith (String b (s ++ x)) (String a p) || includes (s ++ x) (String a p)).
  cbn [startsWith]. rewrite Ascii.eqb_sym, Hb. cbn [andb orb]. now apply IH.
Qed.

Lemma includes_skip_digits (a : ascii) (p x : string) :
  Dashboard.isDigit a = false ->
  includes (Dashboard.skip_digits x) (String a p) = includes x (String a p).
Proof.
  intros Ha. induction x as [|d x IH]; [reflexivity|].
  cbn [Dashboard.skip_digits]. destruct (Dashboard.isDigit d) eqn:Hd; [|reflexivity].
  change (includes (String d x) (String a p))
    with (startsWith (String d x) (String a p) || includes x (String a p)).
  cbn [startsWith].
  destruct (Ascii.eqb_spec a d) as [-> | _]; [congruence|]. exact IH.
Qed.

Lemma skip_digits_append (c : ascii) (T v : string) :
  Dashboard.isDigit c = false ->
  Dashboard.skip_digits (v ++ String c T) = Dashboard.skip_digits v ++ String c T.
Proof.
  intros Hc. induction v as [|d v IH]; cbn [append Dashboard.skip_digits].
  - now rewrite Hc.
  - destruct (Dashboard.isDigit d); [exact IH | reflexivity].
Qed.

Lemma skip_digits_numeral (d : Decimal.uint) (x : string) :
  Dashboard.skip_digits (NilEmpty.string_of_uint d ++ x) = Dashboard.skip_digits x.
Proof.
  induction d; cbn [NilEmpty.string_of_uint append]; [reflexivity| ..]; exact IHd.
Qed.

Lemma skip_digits_digits (z : Z) (x : string) :
  Dashboard.skip_digits (digits z ++ x) = Dashboard.skip_digits x.
Proof.
  unfold digits.
  destruct (N.to_uint (Z.to_N z)); [reflexivity| ..];
    match goal with
    | |- context [NilZero.string_of_uint ?d] => exact (skip_digits_numeral d x)
    end.
Qed.

Lemma drop_length_append (p x : string) : drop (String.length p) (p ++ x) = x.
Proof. induction p as [|a p IH]; [now destruct x | exact IH]. Qed.

Lemma one_line_inv (s : string) :
  Dashboard.one_line s = true ->
  includes s (String (ascii_of_nat 10) "") = false /\
  includes s (String (ascii_of_nat 13) "") = false /\
  includes s Dashboard.line_separator = false /\
  includes s Dashboard.paragraph_separator = false.
Proof.
  unfold Dashboard.one_line. intros H. apply negb_true_iff in H.
  apply orb_false_iff in H as [H H4]. apply orb_false_iff in H as [H H3].
  apply orb_false_iff in H as [H1 H2]. auto.
Qed.

(** Text put in front of a one-line text that starts with C is matched, or
    not, on its own account. *)
Lemma coverage_at_append (v T : string) :
  v <> "" ->
  Dashboard.one_line (String "C" T) = true ->
  Dashboard.coverage_at (v ++ String "C" T) = Dashboard.coverage_at v.
Proof.
  intros Hv HT. apply one_line_inv in HT as (H1 & H2 & H3 & H4).
  destruct v as [|b v]; [congruence|].
  unfold Dashboard.coverage_at.
  assert (Hhead : startsWith (String b v ++ String "C" T) "Coverage: "
                  = startsWith (String b v) "Coverage: ").
  { change (startsWith (String b v ++ String "C" T) "Coverage: ")
      with (Ascii.eqb "C" b && startsWith (v ++ String "C" T) "overage: ").
    now rewrite (startsWith_append_lacks "C" T "overage: " v eq_refl). }
  rewrite Hhead. destruct (startsWith (String b v) "Coverage: ") eqn:Hs; [|reflexivity].
  apply startsWith_spec in Hs as [v2 Hs]. rewrite Hs.
  change (("Coverage: " ++ v2) ++ String "C" T) with ("Coverage: " ++ (v2 ++ String "C" T)).
  change 10%nat with (String.length "Coverage: "). rewrite !drop_length_append.
  cbn [andb].
  rewrite (skip_digits_append "C" T v2 eq_refl).
  rewrite (startsWith_append_lacks "C" T " States" (Dashboard.skip_digits v2) eq_refl).
  assert (Hfirst : match v2 ++ String "C" T with
                   | String c _ => Dashboard.isDigit c
                   | EmptyString => false
                   end
                   = match v2 with
                     | String c _ => Dashboard.isDigit c
                     | EmptyString => false
                     end) by (destruct v2; reflexivity).
  rewrite Hfirst. f_equal.
  destruct (startsWith (Dashboard.skip_digits v2) " States") eqn:Hst; [|reflexivity].
  apply startsWith_spec in Hst as [w Hst]. rewrite Hst.
  change ((" States" ++ w) ++ String "C" T) with (" States" ++ (w ++ String "C" T)).
  change 7%nat with (String.length " States"). rewrite !drop_length_append.
  cbn [andb]. unfold Dashboard.one_line, Dashboard.line_separator, Dashboard.paragraph_separator in *.
  rewrite !(includes_append_head "C") by reflexivity.
  rewrite H1, H2, H3, H4. now rewrite !orb_false_r.
Qed.

Lemma one_line_intro (s : string) :
  includes s (String (ascii_of_nat 10) "") = false ->
  includes s (String (ascii_of_nat 13) "") = false ->
  includes s Dashboard.line_separator = false ->
  includes s Dashboard.paragraph_separator = false ->
  Dashboard.one_line s = true.
Proof.
  unfold Dashboard.one_line. now intros -> -> -> ->.
Qed.

(** A text that matches the pattern from its first character on starts with
    C and holds no line terminator. *)
Lemma matched_tail_clean (tail : string) :
  Dashboard.coverage_at tail = true ->
  exists T, tail = String "C" T /\ Dashboard.one_line tail = true.
Proof.
  unfold Dashboard.coverage_at. intros H.
  apply andb_true_iff in H as [Hs H]. apply andb_true_iff in H as [_ H].
  apply andb_true_iff in H as [Hst Hone].
  apply startsWith_spec in Hs as [x ->].
  change 10%nat with (String.length "Coverage: ") in Hst, Hone.
  rewrite drop_length_append in Hst, Hone.
  apply startsWith_spec in Hst as [rest Hst]. rewrite Hst in Hone.
  change 7%nat with (String.length " States") in Hone.
  rewrite drop_length_append in Hone.
  exists ("overage: " ++ x). split; [reflexivity|].
  apply one_line_inv in Hone as (H1 & H2 & H3 & H4).
  unfold Dashboard.line_separator, Dashboard.paragraph_separator in *.
  assert (Hin : forall a p,
            Page.lacks a "Coverage: " = true -> Dashboard.isDigit a = false ->
            Page.lacks a " States" = true ->
            includes ("Coverage: " ++ x) (String a p) = includes rest (String a p)).
  { intros a p La Da Ls.
    now rewrite (includes_lacks a p "Coverage: " x La),
                <- (includes_skip_digits a p x Da), Hst,
                (includes_lacks a p " States" rest Ls). }
  apply one_line_intro; unfold Dashboard.line_separator, Dashboard.paragraph_separator;
    rewrite Hin by reflexivity; assumption.
Qed.

Lemma phrase_clean (n : nat) :
  Dashboard.one_line (Page.coverage_phrase n) = true /\
  Dashboard.coverage_at (Page.coverage_phrase n) = true.
Proof.
  assert (Hone : forall lead, Page.lacks (ascii_of_nat 10) lead = true ->
            Page.lacks (ascii_of_nat 13) lead = true ->
            Page.lacks (ascii_of_nat 226) lead = true ->
            Dashboard.one_line (lead ++ digits (Z.of_nat n) ++ " Active Claims") = true).
  { intros lead L1 L2 L3.
    assert (Hin : forall a p,
              Page.lacks a lead = true -> Dashboard.isDigit a = false ->
              includes (lead ++ digits (Z.of_nat n) ++ " Active Claims") (String a p)
              = includes " Active Claims" (String a p)).
    { intros a p La Da.
      now rewrite (includes_lacks a p lead _ La),
                  <- (includes_skip_digits a p _ Da), skip_digits_digits. }
    apply one_line_intro; unfold Dashboard.line_separator, Dashboard.paragraph_separator;
      rewrite Hin by (assumption || reflexivity); reflexivity. }
  split.
  - apply (Hone "Coverage: 4 States | "); reflexivity.
  - unfold Dashboard.coverage_at, Page.coverage_phrase.
    change (startsWith ("Coverage: 4 States | " ++ digits (Z.of_nat n) ++ " Active Claims")
              "Coverage: ") with true.
    change (drop 10 ("Coverage: 4 States | " ++ digits (Z.of_nat n) ++ " Active Claims"))
      with ("4 States | " ++ digits (Z.of_nat n) ++ " Active Claims").
    change (Dashboard.skip_digits ("4 States | " ++ digits (Z.of_nat n) ++ " Active Claims"))
      with (" States | " ++ digits (Z.of_nat n) ++ " Active Claims").
    change (drop 7 (" States | " ++ digits (Z.of_nat n) ++ " Active Claims"))
      with (" | " ++ digits (Z.of_nat n) ++ " Active Claims").
    cbn [andb]. change (startsWith (" States | " ++ digits (Z.of_nat n) ++ " Active Claims")
                          " States") with true.
    cbn [andb]. change (match "4 States | " ++ digits (Z.of_nat n) ++ " Active Claims" with
                        | String c _ => Dashboard.isDigit c
                        | EmptyString => false
                        end) with true.
    cbn [andb]. apply (Hone " | "); reflexivity.
Qed.

Lemma coverage_at_before_phrase (c : ascii) (before tail : string) (n : nat) :
  Dashboard.coverage_at tail = true ->
  Dashboard.coverage_at (String c before ++ Page.coverage_phrase n)
  = Dashboard.coverage_at (String c before ++ tail).
Proof.
  intros Ht. destruct (matched_tail_clean tail Ht) as [T [-> HT]].
  destruct (phrase_clean n) as [Hone _].
  rewrite (coverage_at_append (String c before) T ltac:(discriminate) HT).
  change (Page.coverage_phrase n)
    with (String "C" ("overage: 4 States | " ++ digits (Z.of_nat n) ++ " Active Claims")) in *.
  now rewrite (coverage_at_append (String c before) _ ltac:(discriminate) Hone).
Qed.

(** After two replacements the text is what the second alone makes of it. *)
Lemma replace_coverage_twice (s : string) (n m : nat) :
  Dashboard.replace_coverage (Dashboard.replace_coverage s (Page.coverage_phrase n))
                             (Page.coverage_phrase m)
  = Dashboard.replace_coverage s (Page.coverage_phrase m).
Proof.
  induction s as [|c s IH]; [reflexivity|].
  cbn [Dashboard.replace_coverage].
  destruct (Dashboard.coverage_at (String c s)) eqn:Hc.
  - destruct (Page.coverage_phrase n) as [|a p] eqn:Hp; [discriminate|].
    cbn [Dashboard.replace_coverage]. rewrite <- Hp.
    now rewrite (proj2 (phrase_clean n)).
  - cbn [Dashboard.replace_coverage].
    assert (Hstill : Dashboard.coverage_at
                       (String c (Dashboard.replace_coverage s (Page.coverage_phrase n))) = false).
    { destruct (replace_coverage_cases s (Page.coverage_phrase n))
        as [(before & tail & Hs & Ht & _ & ->) | [_ ->]]; [|exact Hc].
      change (String c (before ++ Page.coverage_phrase n))
        with (String c before ++ Page.coverage_phrase n).
      rewrite (coverage_at_before_phrase c before tail n Ht).
      now rewrite Hs in Hc. }
    rewrite Hstill. now rewrite IH.
Qed.

Lemma includes_after_replace (t : string) (n : nat) :
  includes t "Coverage:" = true ->
  includes (Dashboard.replace_coverage t (Page.coverage_phrase n)) "Coverage:" = true.
Proof.
  intros H.
  destruct (replace_coverage_cases t (Page.coverage_phrase n))
    as [(before & tail & _ & _ & _ & ->) | [_ ->]]; [|exact H].
  apply includes_append_r, includes_here. reflexivity.
Qed.

(** X9. Two coverage updates in a row leave the page as the second alone
    does: the phrase written by the first is matched and replaced by the
    second, at the same place. *)
Theorem coverage_updates_compose (n m : nat) (s : State) :
  snd (Dashboard.updateCoverageInfo m (snd (Dashboard.updateCoverageInfo n s)))
  = snd (Dashboard.updateCoverageInfo m s).
Proof.
  unfold Dashboard.updateCoverageInfo, set_elements, modify.
  cbn [snd elements console loadedData Elements.approved Elements.pending Elements.review
       Elements.rejected Elements.lastUpdate Elements.coverage].
  destruct (Elements.coverage (elements s)) as [t|]; [|reflexivity].
  fold (Page.coverage_phrase n). fold (Page.coverage_phrase m).
  destruct (includes t "Coverage:") eqn:Hin.
  - rewrite (includes_after_replace t n Hin). now rewrite replace_coverage_twice.
  - now rewrite Hin.
Qed.

(** *** Where the pattern matches, and where it does not *)

Lemma digits_head (z : Z) (x : string) :
  match digits z ++ x with
  | String c _ => Dashboard.isDigit c
  | EmptyString => false
  end = true.
Proof.
  unfold digits.
  destruct (N.to_uint (Z.to_N z)) as [|d|d|d|d|d|d|d|d|d|d]; reflexivity.
Qed.

(** The pattern matches where its text stands, up to the end of a text that
    has no line break from there on. *)
Lemma coverage_at_pattern (k : Z) (rest : string) :
  Dashboard.one_line rest = true ->
  Dashboard.coverage_at ("Coverage: " ++ digits k ++ " States" ++ rest) = true.
Proof.
  intros Hone. unfold Dashboard.coverage_at.
  rewrite startsWith_append.
  change 10%nat with (String.length "Coverage: "). rewrite drop_length_append.
  rewrite digits_head, skip_digits_digits.
  change (Dashboard.skip_digits (" States" ++ rest)) with (" States" ++ rest).
  rewrite startsWith_append.
  change 7%nat with (String.length " States"). rewrite drop_length_append.
  now rewrite Hone.
Qed.

(** No match starts in a text that does not hold the pattern's first ten
    characters, whatever follows it, if that starts with them itself. *)
Lemma coverage_at_not_before (v x : string) :
  v <> "" ->
  includes v "Coverage: " = false ->
  Dashboard.coverage_at (v ++ "Coverage: " ++ x) = false.
Proof.
  intros Hv Hin. unfold Dashboard.coverage_at.
  assert (Hs : startsWith (v ++ "Coverage: " ++ x) "Coverage: " = false);
    [|now rewrite Hs].
  assert (Hv0 : startsWith v "Coverage: " = false).
  { destruct v as [|c v]; [congruence|].
    change (includes (String c v) "Coverage: ")
      with (startsWith (String c v) "Coverage: " || includes v "Coverage: ") in Hin.
    now apply orb_false_iff in Hin as [H _]. }
  clear Hin.
  destruct v as [|c1 [|c2 [|c3 [|c4 [|c5 [|c6 [|c7 [|c8 [|c9 [|c10 v]]]]]]]]]];
    [congruence | ..]; cbn [append startsWith] in *;
    repeat match goal with
           | |- context [Ascii.eqb ?a ?b] =>
               destruct (Ascii.eqb a b) eqn:?; cbn [andb]; try reflexivity; try discriminate
           end.
  all: try congruence.
Qed.

Lemma replace_coverage_here (s by_ : string) :
  Dashboard.coverage_at s = true -> Dashboard.replace_coverage s by_ = by_.
Proof. intros H. destruct s; cbn [Dashboard.replace_coverage]; now rewrite H. Qed.

Lemma replace_coverage_after (before x by_ : string) :
  includes before "Coverage: " = false ->
  Dashboard.coverage_at ("Coverage: " ++ x) = true ->
  Dashboard.replace_coverage (before ++ "Coverage: " ++ x) by_ = before ++ by_.
Proof.
  intros Hin Hat. induction before as [|c before IH].
  - apply replace_coverage_here. exact Hat.
  - change ((String c before ++ "Coverage: " ++ x))
      with (String c (before ++ "Coverage: " ++ x)).
    cbn [Dashboard.replace_coverage].
    change (String c (before ++ "Coverage: " ++ x))
      with (String c before ++ "Coverage: " ++ x).
    rewrite (coverage_at_not_before (String c before) x ltac:(discriminate) Hin).
    change (includes (String c before) "Coverage: ")
      with (startsWith (String c before) "Coverage: " || includes before "Coverage: ") in Hin.
    apply orb_false_iff in Hin as [_ Hin].
    rewrite (IH Hin). reflexivity.
Qed.

(** X8. Where the coverage paragraph holds the text Coverage: followed by a
    number, States and the rest of a single line, and the text Coverage:
    with its blank does not occur before that place, [updateCoverageInfo]
    assigns the paragraph the text before that place followed by
    Coverage: 4 States | n Active Claims: the old number and the rest of the
    line are gone, what came before is kept. *)
Theorem coverage_rewritten_at_first_match
  (n k : nat) (s : State) (before rest : string) :
  Elements.coverage (elements s)
    = Some (before ++ "Coverage: " ++ digits (Z.of_nat k) ++ " States" ++ rest) ->
  includes before "Coverage: " = false ->
  Dashboard.one_line rest = true ->
  Elements.coverage (elements (snd (Dashboard.updateCoverageInfo n s)))
    = Some (before ++ "Coverage: 4 States | " ++ digits (Z.of_nat n) ++ " Active Claims").
Proof.
  intros Ht Hbefore Hrest.
  unfold Dashboard.updateCoverageInfo, set_elements, modify.
  cbn [snd elements Elements.coverage]. rewrite Ht.
  assert (Hin : includes (before ++ "Coverage: " ++ digits (Z.of_nat k) ++ " States" ++ rest)
                  "Coverage:" = true).
  { apply includes_append_r, includes_here. reflexivity. }
  rewrite Hin. f_equal.
  apply replace_coverage_after; [exact Hbefore|].
  apply coverage_at_pattern. exact Hrest.
Qed.

Lemma coverage_rewritten_at_first_match_witness :
  Elements.coverage
    (elements
       (snd (Dashboard.updateCoverageInfo 7
               {| elements :=
                    {| Elements.approved := None; Elements.pending := None;
                       Elements.review := None; Elements.rejected := None;
                       Elements.lastUpdate := None;
                       Elements.coverage :=
                         Some "Forest cover. Coverage: 12 States | 445 Active Claims" |};
                  console := []; loadedData := [] |})))
  = Some "Forest cover. Coverage: 4 States | 7 Active Claims".
Proof.
  apply (coverage_rewritten_at_first_match 7 12 _ "Forest cover. " " | 445 Active Claims");
    reflexivity.
Defined.

Lemma one_line_skip_digits (x : string) :
  Dashboard.one_line (Dashboard.skip_digits x) = Dashboard.one_line x.
Proof.
  unfold Dashboard.one_line, Dashboard.line_separator, Dashboard.paragraph_separator.
  now rewrite !includes_skip_digits by reflexivity.
Qed.

Lemma one_line_after_States (w : string) :
  Dashboard.one_line (" States" ++ w) = Dashboard.one_line w.
Proof.
  unfold Dashboard.one_line, Dashboard.line_separator, Dashboard.paragraph_separator.
  now rewrite !(includes_lacks _ _ " States" w) by reflexivity.
Qed.

(** The pattern does not match where no number follows, or where a line
    break comes before the end of the text. *)
Lemma coverage_at_broken (x : string) :
  Page.numbered x = false \/ Dashboard.one_line x = false ->
  Dashboard.coverage_at ("Coverage: " ++ x) = false.
Proof.
  intros H. unfold Dashboard.coverage_at.
  rewrite startsWith_append.
  change 10%nat with (String.length "Coverage: "). rewrite drop_length_append.
  fold (Page.numbered x). cbn [andb].
  destruct H as [H | H]; [now rewrite H|].
  destruct (Page.numbered x); [cbn [andb]|reflexivity].
  destruct (startsWith (Dashboard.skip_digits x) " States") eqn:Hs; [cbn [andb]|reflexivity].
  apply startsWith_spec in Hs as [w Hs]. rewrite Hs.
  change 7%nat with (String.length " States"). rewrite drop_length_append.
  now rewrite <- one_line_after_States, <- Hs, one_line_skip_digits.
Qed.

Lemma replace_coverage_absent (x by_ : string) :
  includes x "Coverage: " = false -> Dashboard.replace_coverage x by_ = x.
Proof.
  induction x as [|c x IH]; intros H; [reflexivity|].
  change (includes (String c x) "Coverage: ")
    with (startsWith (String c x) "Coverage: " || includes x "Coverage: ") in H.
  apply orb_false_iff in H as [Hs Hx].
  cbn [Dashboard.replace_coverage]. unfold Dashboard.coverage_at at 1. rewrite Hs.
  cbn [andb]. now rewrite (IH Hx).
Qed.

Lemma replace_coverage_broken (before x by_ : string) :
  includes before "Coverage: " = false ->
  includes x "Coverage: " = false ->
  Dashboard.coverage_at ("Coverage: " ++ x) = false ->
  Dashboard.replace_coverage (before ++ "Coverage: " ++ x) by_ = before ++ "Coverage: " ++ x.
Proof.
  intros Hb Hx Hat. induction before as [|c before IH].
  - change ("" ++ "Coverage: " ++ x) with (String "C" ("overage: " ++ x)).
    cbn [Dashboard.replace_coverage].
    change (String "C" ("overage: " ++ x)) with ("Coverage: " ++ x). rewrite Hat.
    cbn [append Dashboard.replace_coverage].
    repeat (unfold Dashboard.coverage_at at 1; cbn [startsWith Ascii.eqb Bool.eqb andb]).
    now rewrite (replace_coverage_absent x by_ Hx).
  - change ((String c before ++ "Coverage: " ++ x))
      with (String c (before ++ "Coverage: " ++ x)).
    cbn [Dashboard.replace_coverage].
    change (String c (before ++ "Coverage: " ++ x))
      with (String c before ++ "Coverage: " ++ x).
    rewrite (coverage_at_not_before (String c before) x ltac:(discriminate) Hb).
    change (includes (String c before) "Coverage: ")
      with (startsWith (String c before) "Coverage: " || includes before "Coverage: ") in Hb.
    apply orb_false_iff in Hb as [_ Hb].
    rewrite (IH Hb). reflexivity.
Qed.

(** X13. Where the text Coverage: with its blank occurs once in the coverage
    paragraph and what follows it does not start with a digit, or holds a
    line break anywhere, [updateCoverageInfo] leaves the paragraph as it is:
    the pattern asks for a number and, up to the end of the text, a single
    line. *)
Theorem coverage_kept_where_pattern_fails (n : nat) (s : State) (before x : string) :
  Elements.coverage (elements s) = Some (before ++ "Coverage: " ++ x) ->
  includes before "Coverage: " = false ->
  includes x "Coverage: " = false ->
  Page.numbered x = false \/ Dashboard.one_line x = false ->
  Elements.coverage (elements (snd (Dashboard.updateCoverageInfo n s)))
    = Some (before ++ "Coverage: " ++ x).
Proof.
  intros Ht Hb Hx Hfail.
  unfold Dashboard.updateCoverageInfo, set_elements, modify.
  cbn [snd elements Elements.coverage]. rewrite Ht.
  destruct (includes (before ++ "Coverage: " ++ x) "Coverage:"); [|reflexivity].
  f_equal. apply replace_coverage_broken; [exact Hb | exact Hx|].
  apply coverage_at_broken. exact Hfail.
Qed.

Lemma coverage_kept_where_pattern_fails_witness :
  Elements.coverage
    (elements
       (snd (Dashboard.updateCoverageInfo 7
               {| elements :=
                    {| Elements.approved := None; Elements.pending := None;
                       Elements.review := None; Elements.rejected := None;
                       Elements.lastUpdate := None;
                       Elements.coverage :=
                         Some ("Forest cover. " ++ "Coverage: "
                               ++ "12 States | 445 Active Claims" ++ Spec.newline) |};
                  console := []; loadedData := [] |})))
  = Some ("Forest cover. " ++ "Coverage: " ++ "12 States | 445 Active Claims" ++ Spec.newline).
Proof.
  apply (coverage_kept_where_pattern_fails 7 _ "Forest cover. "
           ("12 States | 445 Active Claims" ++ Spec.newline));
    [reflexivity | reflexivity | reflexivity | right; reflexivity].
Defined.

(** ** Decimal numerals *)

Lemma append_assoc (a b c : string) : (a ++ b) ++ c = a ++ b ++ c.
Proof. induction a as [|x a IH]; [reflexivity|]. cbn [append]. now rewrite IH. Qed.

Lemma append_empty_r (a : string) : a ++ "" = a.
Proof. induction a as [|x a IH]; [reflexivity|]. cbn [append]. now rewrite IH. Qed.

Lemma string_of_revapp (l acc : Decimal.uint) :
  NilEmpty.string_of_uint (Decimal.revapp l acc)
  = NilEmpty.string_of_uint (Decimal.revapp l Decimal.Nil) ++ NilEmpty.string_of_uint acc.
Proof.
  revert acc. induction l; intros acc; cbn [Decimal.revapp]; try reflexivity;
    rewrite IHl; symmetry; rewrite IHl; rewrite append_assoc; reflexivity.
Qed.

Lemma digits_pos (p : positive) :
  digits (Zpos p) = NilEmpty.string_of_uint (Decimal.rev (Pos.to_little_uint p)).
Proof.
  unfold digits. cbn [Z.to_N N.to_uint]. unfold Pos.to_uint.
  destruct (Decimal.rev (Pos.to_little_uint p)) eqn:E; try reflexivity.
  exfalso. apply (Unsigned.to_uint_nonnil p). exact E.
Qed.

Lemma to_lu_digit (p : positive) (r : Z) :
  0 <= r < 10 ->
  exists l, Pos.to_little_uint (Z.to_pos (10 * Zpos p + r)) = l /\
            NilEmpty.string_of_uint (Decimal.rev l)
            = NilEmpty.string_of_uint (Decimal.rev (Pos.to_little_uint p))
              ++ String (digit_of r) "".
Proof.
  intros Hr.
  pose proof (Unsigned.to_ldec_tenfold p) as H0. cbn [Unsigned.to_lu] in H0.
  assert (Hs : forall n : N, (0 < n)%N ->
            Unsigned.to_lu (N.succ n) = Decimal.Little.succ (Unsigned.to_lu n))
    by (intros; apply Unsigned.to_lu_succ).
  assert (Hcase : r = 0 \/ r = 1 \/ r = 2 \/ r = 3 \/ r = 4 \/ r = 5 \/ r = 6 \/ r = 7
                  \/ r = 8 \/ r = 9) by lia.
  assert (Hto : Pos.to_little_uint (Z.to_pos (10 * Zpos p + r))
                = Unsigned.to_lu (10 * Npos p + Z.to_N r)).
  { replace (10 * N.pos p + Z.to_N r)%N with (N.pos (Z.to_pos (10 * Z.pos p + r))) by lia.
    reflexivity. }
  eexists. split; [reflexivity|]. rewrite Hto.
  assert (Hr' : forall c, NilEmpty.string_of_uint
                       (Decimal.rev (c (Pos.to_little_uint p)))
                     = NilEmpty.string_of_uint (Decimal.revapp (Pos.to_little_uint p) (c Decimal.Nil)) ->
                True) by trivial.
  destruct Hcase as [->|[->|[->|[->|[->|[->|[->|[->|[->| ->]]]]]]]]];
    cbn [Z.to_N];
    [ rewrite N.add_0_r
    | replace (10 * N.pos p + 1)%N with (N.succ (10 * N.pos p)) by lia
    | replace (10 * N.pos p + 2)%N with (N.succ (N.succ (10 * N.pos p))) by lia
    | replace (10 * N.pos p + 3)%N with (N.succ (N.succ (N.succ (10 * N.pos p)))) by lia
    | replace (10 * N.pos p + 4)%N
        with (N.succ (N.succ (N.succ (N.succ (10 * N.pos p))))) by lia
    | replace (10 * N.pos p + 5)%N
        with (N.succ (N.succ (N.succ (N.succ (N.succ (10 * N.pos p)))))) by lia
    | replace (10 * N.pos p + 6)%N
        with (N.succ (N.succ (N.succ (N.succ (N.succ (N.succ (10 * N.pos p))))))) by lia
    | replace (10 * N.pos p + 7)%N
        with (N.succ (N.succ (N.succ (N.succ (N.succ (N.succ (N.succ (10 * N.pos p))))))))
        by lia
    | replace (10 * N.pos p + 8)%N
        with (N.succ (N.succ (N.succ (N.succ (N.succ (N.succ (N.succ (N.succ
                (10 * N.pos p))))))))) by lia
    | replace (10 * N.pos p + 9)%N
        with (N.succ (N.succ (N.succ (N.succ (N.succ (N.succ (N.succ (N.succ (N.succ
                (10 * N.pos p)))))))))) by lia ];
    rewrite ?Unsigned.to_lu_succ, H0; cbn [Decimal.Little.succ];
    unfold Decimal.rev; cbn [Decimal.revapp];
    rewrite string_of_revapp; reflexivity.
Qed.

Lemma digits_snoc (q r : Z) :
  0 < q -> 0 <= r < 10 -> digits (10 * q + r) = digits q ++ String (digit_of r) "".
Proof.
  intros Hq Hr. destruct q as [|p|p]; try lia.
  destruct (to_lu_digit p r Hr) as (l & Hl & Hs).
  assert (Hp : 10 * Zpos p + r = Zpos (Z.to_pos (10 * Zpos p + r))) by lia.
  rewrite Hp, !digits_pos, Hl. exact Hs.
Qed.

Lemma digits_small (r : Z) : 0 <= r < 10 -> digits r = String (digit_of r) "".
Proof.
  intros Hr.
  assert (Hcase : r = 0 \/ r = 1 \/ r = 2 \/ r = 3 \/ r = 4 \/ r = 5 \/ r = 6 \/ r = 7
                  \/ r = 8 \/ r = 9) by lia.
  destruct Hcase as [->|[->|[->|[->|[->|[->|[->|[->|[->| ->]]]]]]]]]; reflexivity.
Qed.

Lemma repeat_snoc (c : ascii) (n : nat) :
  repeat c n ++ String c "" = String c (repeat c n).
Proof. induction n as [|n IH]; [reflexivity|]. cbn [repeat append]. now rewrite IH. Qed.

Lemma digits_shift (s : Z) (j : nat) :
  0 < s -> digits (s * 10 ^ Z.of_nat j) = digits s ++ repeat "0" j.
Proof.
  intros Hs. induction j as [|j IH].
  - cbn [repeat]. rewrite Z.mul_1_r. now rewrite append_empty_r.
  - replace (s * 10 ^ Z.of_nat (S j)) with (10 * (s * 10 ^ Z.of_nat j) + 0).
    + rewrite digits_snoc; [|nia|lia]. rewrite IH.
      rewrite append_assoc. f_equal. change (digit_of 0) with "0"%char.
      rewrite repeat_snoc. reflexivity.
    + rewrite Nat2Z.inj_succ, Z.pow_succ_r by lia. ring.
Qed.

Lemma length_snoc (s : string) (c : ascii) :
  String.length (s ++ String c "") = S (String.length s).
Proof. induction s as [|a s IH]; [reflexivity|]. cbn [append String.length]. now rewrite IH. Qed.

Lemma digits_length_upto (n : nat) (z : Z) :
  0 < z -> (Z.to_nat z <= n)%nat ->
  10 ^ (Z.of_nat (String.length (digits z)) - 1) <= z < 10 ^ Z.of_nat (String.length (digits z)).
Proof.
  revert z. induction n as [|n IH]; intros z Hz Hn; [lia|].
  destruct (Z_lt_le_dec z 10) as [Hsmall | Hbig].
  - rewrite (digits_small z) by lia. cbn. lia.
  - pose proof (Z.div_mod z 10 ltac:(lia)) as Hdm.
    pose proof (Z.mod_pos_bound z 10 ltac:(lia)) as Hr.
    assert (Hq : 0 < z / 10) by (apply Z.div_str_pos; lia).
    destruct (IH (z / 10) Hq ltac:(lia)) as [Hlo Hhi].
    rewrite Hdm at 1 3 4. rewrite digits_snoc by lia. rewrite length_snoc.
    rewrite <- Hdm.
    replace (Z.of_nat (S (String.length (digits (z / 10)))) - 1)
      with (Z.succ (Z.of_nat (String.length (digits (z / 10))) - 1)) by lia.
    rewrite Nat2Z.inj_succ.
    assert (Hlen : (0 < String.length (digits (z / 10)))%nat).
    { destruct (digits (z / 10)) eqn:E; [|cbn; lia].
      pose proof (digits_not_empty (z / 10)) as Hne. rewrite E in Hne. discriminate. }
    rewrite !Z.pow_succ_r by lia. lia.
Qed.

Lemma digits_length (z : Z) :
  0 < z ->
  10 ^ (Z.of_nat (String.length (digits z)) - 1) <= z < 10 ^ Z.of_nat (String.length (digits z)).
Proof. intros Hz. apply (digits_length_upto (Z.to_nat z)); [exact Hz | lia]. Qed.

(** ** Whole numbers as text *)

Lemma pow2_negative (t : Z) : t < 0 -> (0 < pow2 t /\ pow2 t <= 1 # 2)%Q.
Proof.
  intros Ht. unfold pow2. destruct (Z.leb_spec 0 t) as [|_]; [lia|].
  assert (Hp : 2 <= 2 ^ (- t)).
  { change 2 with (2 ^ 1) at 1. apply Z.pow_le_mono_r; lia. }
  destruct (2 ^ (- t)) as [|p|p]; try lia.
  change (/ inject_Z (Zpos p))%Q with (1 # p)%Q.
  split; [reflexivity|]. unfold Qle. cbn [Qnum Qden]. lia.
Qed.

Lemma pow10_whole (j : Z) : 0 <= j -> pow10 j = inject_Z (10 ^ j).
Proof. intros Hj. unfold pow10. destruct (Z.leb_spec 0 j); [reflexivity | lia]. Qed.

Section Whole.
Variables (m : positive) (e z : Z).
Hypothesis He : e <= 0.
Hypothesis Hm : Zpos m = z * 2 ^ (- e).
Hypothesis Hz : 0 < z.

Lemma magnitude_whole : (magnitude m e == inject_Z z)%Q.
Proof.
  unfold magnitude, pow2. rewrite Hm.
  destruct (Z.leb_spec 0 e) as [H0|H0].
  - replace e with 0 by lia. cbn [Z.opp Z.pow]. rewrite Z.mul_1_r.
    change (inject_Z (2 ^ 0)) with 1%Q. ring.
  - rewrite inject_Z_mult.
    assert (Hp : 0 < 2 ^ (- e)) by (apply Z.pow_pos_nonneg; lia).
    assert (Hq : ~ (inject_Z (2 ^ (- e)) == 0)%Q).
    { intros H. unfold Qeq in H. cbn in H. lia. }
    field. exact Hq.
Qed.

Lemma converts_back_whole (c : Z) (q : Q) :
  (q == inject_Z c)%Q -> converts_back m e q = (c =? z).
Proof.
  intros Hq. unfold converts_back. cbv zeta.
  pose proof magnitude_whole as Hv.
  pose proof (pow2_negative (e - 1) ltac:(lia)) as [Hh0 Hh1].
  pose proof (pow2_negative (e - 2) ltac:(lia)) as [Hg0 Hg1].
  set (gap := if (Zpos m =? 2 ^ (prec - 1)) && (emin prec emax <? e)
              then pow2 (e - 2) else pow2 (e - 1)).
  assert (Hgap : (0 < gap /\ gap <= 1 # 2)%Q).
  { unfold gap. destruct ((Zpos m =? 2 ^ (prec - 1)) && (emin prec emax <? e)); split;
      assumption. }
  destruct Hgap as [Hgap0 Hgap1].
  destruct (Z.eqb_spec c z) as [-> | Hne].
  - assert (H1 : Qle_bool (magnitude m e - gap) q = true)
      by (apply Qle_bool_iff; lra).
    assert (H2 : Qle_bool q (magnitude m e + pow2 (e - 1)) = true)
      by (apply Qle_bool_iff; lra).
    assert (H3 : Qle_bool q (magnitude m e - gap) = false).
    { destruct (Qle_bool q (magnitude m e - gap)) eqn:E; [|reflexivity].
      apply Qle_bool_iff in E. lra. }
    assert (H4 : Qle_bool (magnitude m e + pow2 (e - 1)) q = false).
    { destruct (Qle_bool (magnitude m e + pow2 (e - 1)) q) eqn:E; [|reflexivity].
      apply Qle_bool_iff in E. lra. }
    unfold Qlt_bool. rewrite H1, H2, H3, H4. now destruct (Z.even (Zpos m)).
  - assert (Hfar : (inject_Z c <= inject_Z z - 1 \/ inject_Z z + 1 <= inject_Z c)%Q).
    { destruct (Z_lt_le_dec c z).
      - left. assert (H : (inject_Z c <= inject_Z (z + -1))%Q) by (rewrite <- Zle_Qle; lia).
        rewrite inject_Z_plus in H. change (inject_Z (-1)) with (-1)%Q in H. lra.
      - right. assert (H : (inject_Z (z + 1) <= inject_Z c)%Q) by (rewrite <- Zle_Qle; lia).
        rewrite inject_Z_plus in H. change (inject_Z 1) with 1%Q in H. lra. }
    unfold Qlt_bool.
    destruct Hfar as [Hlow | Hhigh].
    + assert (H1 : Qle_bool (magnitude m e - gap) q = false).
      { destruct (Qle_bool (magnitude m e - gap) q) eqn:E; [|reflexivity].
        apply Qle_bool_iff in E. lra. }
      assert (H3 : Qle_bool q (magnitude m e - gap) = true)
        by (apply Qle_bool_iff; lra).
      rewrite H1, H3. now destruct (Z.even (Zpos m)).
    + assert (H2 : Qle_bool q (magnitude m e + pow2 (e - 1)) = false).
      { destruct (Qle_bool q (magnitude m e + pow2 (e - 1))) eqn:E; [|reflexivity].
        apply Qle_bool_iff in E. lra. }
      assert (H4 : Qle_bool (magnitude m e + pow2 (e - 1)) q = true)
        by (apply Qle_bool_iff; lra).
      rewrite H2, H4. rewrite !andb_false_r. now destruct (Z.even (Zpos m)).
Qed.

Lemma shortest_whole (fuel : nat) (D : Z) :
  z < 10 ^ D ->
  forall j : Z,
    0 <= j < D -> (Z.to_nat j < fuel)%nat ->
    exists t, 0 <= t <= j /\ z mod 10 ^ t = 0 /\
              shortest m e fuel D (D - j) = (z / 10 ^ t, D).
Proof.
  intros HD. induction fuel as [|fuel IH]; intros j Hj Hfuel; [lia|].
  cbn [shortest]. cbv zeta.
  replace (D - (D - j)) with j by lia. rewrite (pow10_whole j) by lia.
  set (P := 10 ^ j). assert (HP : 0 < P) by (apply Z.pow_pos_nonneg; lia).
  assert (Hs : Qfloor (magnitude m e / inject_Z P) = z / P).
  { rewrite Zdiv_Qdiv. apply Qfloor_comp. now rewrite magnitude_whole. }
  rewrite Hs.
  rewrite (converts_back_whole (z / P * P) (inject_Z (z / P) * inject_Z P))
    by (now rewrite inject_Z_mult).
  rewrite (converts_back_whole ((z / P + 1) * P) (inject_Z (z / P + 1) * inject_Z P))
    by (now rewrite inject_Z_mult).
  pose proof (Z.div_mod z P ltac:(lia)) as Hdm.
  pose proof (Z.mod_pos_bound z P HP) as Hr.
  assert (Hc1 : ((z / P + 1) * P =? z) = false) by (apply Z.eqb_neq; nia).
  rewrite Hc1.
  destruct (Z.eqb_spec (z / P * P) z) as [Hexact | Hrest].
  - exists j. split; [lia|]. split; [fold P; nia|].
    assert (Hpick : (z / P =? 10 ^ (D - j)) = false).
    { apply Z.eqb_neq. intros Heq.
      assert (10 ^ D = 10 ^ (D - j) * P).
      { unfold P. rewrite <- Z.pow_add_r by lia. f_equal. lia. }
      nia. }
    rewrite Hpick. reflexivity.
  - assert (Hj1 : 1 <= j).
    { destruct (Z.eq_dec j 0) as [-> | ]; [|lia]. unfold P in Hrest. cbn in Hrest.
      rewrite Z.div_1_r in Hrest. lia. }
    destruct (IH (j - 1) ltac:(lia) ltac:(lia)) as (t & Ht & Hdiv & Hrun).
    exists t. split; [lia|]. split; [exact Hdiv|].
    replace (D - j + 1) with (D - (j - 1)) by lia. exact Hrun.
Qed.

End Whole.

Lemma length_append_repeat (s : string) (c : ascii) (t : nat) :
  String.length (s ++ repeat c t) = (String.length s + t)%nat.
Proof.
  induction s as [|a s IH]; cbn [append String.length].
  - induction t as [|t IHt]; [reflexivity|]. cbn [repeat String.length]. now rewrite IHt.
  - now rewrite IH.
Qed.

(** Number::toString of a whole number below 2^53 is its decimal numeral. *)
Lemma number_to_string_whole (z : Z) :
  0 <= z < 2 ^ 53 -> number_to_string (of_Z z) = digits z.
Proof.
  intros Hz. destruct (Z.eq_dec z 0) as [-> | Hz0]; [reflexivity|].
  rewrite (of_Z_whole z) by lia. unfold Page.whole.
  pose proof (Zdigits2_range z ltac:(lia)) as Hd.
  set (e := Zdigits2 z - 53). set (m := Z.to_pos (z * 2 ^ (53 - Zdigits2 z))).
  assert (He : e <= 0) by (unfold e; lia).
  assert (Hm : Zpos m = z * 2 ^ (- e)).
  { unfold m, e. replace (- (Zdigits2 z - 53)) with (53 - Zdigits2 z) by lia.
    assert (0 < 2 ^ (53 - Zdigits2 z)) by (apply Z.pow_pos_nonneg; lia).
    rewrite Z2Pos.id by nia. reflexivity. }
  assert (Hpos : 0 < z) by lia.
  pose proof (magnitude_whole m e z He Hm) as Hv.
  pose proof (digits_length z Hpos) as [Hlo Hhi].
  set (D := Z.of_nat (String.length (digits z))) in *.
  assert (HD : 1 <= D <= 16).
  { split.
    - unfold D. destruct (digits z) eqn:E; [|cbn [String.length]; lia].
      pose proof (digits_not_empty z) as Hne. rewrite E in Hne. discriminate.
    - destruct (Z_lt_le_dec 16 D) as [Hbig|]; [|lia].
      assert (10 ^ 16 <= 10 ^ (D - 1)) by (apply Z.pow_le_mono_r; lia).
      assert (2 ^ 53 < 10 ^ 16) by reflexivity. lia. }
  assert (Hexp : decimal_exponent (magnitude m e) = D).
  { unfold decimal_exponent.
    assert (H1 : Qle_bool 1 (magnitude m e) = true).
    { apply Qle_bool_iff. rewrite Hv. change 1%Q with (inject_Z 1). rewrite <- Zle_Qle. lia. }
    rewrite H1. rewrite (Qfloor_comp _ _ Hv), Qfloor_Z. reflexivity. }
  cbn [number_to_string]. rewrite Hexp.
  destruct (shortest_whole m e z He Hm 17 D Hhi (D - 1) ltac:(lia) ltac:(lia))
    as (t & Ht & Hdiv & Hrun).
  replace (D - (D - 1)) with 1 in Hrun by lia. rewrite Hrun.
  assert (HP : 0 < 10 ^ t) by (apply Z.pow_pos_nonneg; lia).
  pose proof (Z.div_mod z (10 ^ t) ltac:(lia)) as Hdm. rewrite Hdiv, Z.add_0_r in Hdm.
  assert (Hzs : z = z / 10 ^ t * 10 ^ Z.of_nat (Z.to_nat t)).
  { rewrite Z2Nat.id by lia. lia. }
  assert (Hs : 0 < z / 10 ^ t).
  { destruct (Z_lt_le_dec 0 (z / 10 ^ t)); [assumption|]. exfalso. nia. }
  pose proof (digits_shift (z / 10 ^ t) (Z.to_nat t) Hs) as Hshift.
  rewrite <- Hzs in Hshift.
  assert (Hlen : D = Z.of_nat (String.length (digits (z / 10 ^ t))) + t).
  { unfold D. rewrite Hshift, length_append_repeat. lia. }
  cbn [append]. unfold layout.
  replace ((Z.of_nat (String.length (digits (z / 10 ^ t))) <=? D) && (D <=? 21)) with true
    by (symmetry; apply andb_true_iff; split; apply Z.leb_le; lia).
  replace (D - Z.of_nat (String.length (digits (z / 10 ^ t)))) with t by lia.
  symmetry. exact Hshift.
Qed.

(** ** From the dashboard to the report *)

Lemma count_text_digits (texts : list string) (i : nat) (n : nat) :
  nth_error texts i = Some (digits (Z.of_nat n)) ->
  parseInt (FRAAtlasApp.count_text texts i) = of_Z (Z.of_nat n).
Proof.
  intros H. unfold FRAAtlasApp.count_text. rewrite H.
  cbn [Dashboard.text_or_zero]. rewrite digits_not_empty. apply parseInt_digits. lia.
Qed.

(** C5. For every snapshot of four whole counts whose sum is below 2^53,
    shown by the counters as their decimal numerals, the report holds the
    line Approved Claims: followed by the approved count and the end of the
    line, the other three category lines likewise, and the line of the
    executive summary shows, up to its end, the sum approved + pending +
    review + rejected of the same four counts. *)
Theorem report_shows_snapshot
  (a p r j : nat) (more : list string) (r1 r2 r3 : number) (now : Date) :
  Z.of_nat (a + p + r + j) < 2 ^ 53 ->
  let counts :=
    digits (Z.of_nat a) :: digits (Z.of_nat p) :: digits (Z.of_nat r)
      :: digits (Z.of_nat j) :: more in
  let text :=
    FRAAtlasApp.createReportContent now (FRAAtlasApp.generateReportData counts r1 r2 r3) in
  includes text
    ("Total FRA Claims Monitored: " ++ digits (Z.of_nat (a + p + r + j)) ++ Spec.newline
     ++ "States Covered: ") = true /\
  includes text
    ("Approved Claims: " ++ digits (Z.of_nat a) ++ Spec.newline
     ++ "• Pending Review: " ++ digits (Z.of_nat p) ++ "  " ++ Spec.newline
     ++ "• Under Review: " ++ digits (Z.of_nat r) ++ Spec.newline
     ++ "• Rejected Claims: " ++ digits (Z.of_nat j) ++ Spec.newline) = true.
Proof.
  intros Hsum counts text. unfold text, FRAAtlasApp.createReportContent.
  cbn [FRAAtlasApp.generateReportData ReportData.totalClaims ReportData.approved
       ReportData.pending ReportData.review ReportData.rejected].
  rewrite (count_text_digits counts 0%nat a) by reflexivity.
  rewrite (count_text_digits counts 1%nat p) by reflexivity.
  rewrite (count_text_digits counts 2%nat r) by reflexivity.
  rewrite (count_text_digits counts 3%nat j) by reflexivity.
  rewrite !add_of_Z by lia.
  rewrite !number_to_string_whole by lia.
  replace (Z.of_nat a + Z.of_nat p + Z.of_nat r + Z.of_nat j)
    with (Z.of_nat (a + p + r + j)) by lia.
  unfold Spec.newline. split; find_text.
Qed.

Lemma report_shows_snapshot_witness :
  let text :=
    FRAAtlasApp.createReportContent Spec.morning
      (FRAAtlasApp.generateReportData ["234"; "156"; "43"; "12"]
         Spec.below_one Spec.below_one Spec.below_one) in
  includes text
    ("Total FRA Claims Monitored: " ++ "445" ++ Spec.newline ++ "States Covered: ") = true /\
  includes text
    ("Approved Claims: " ++ "234" ++ Spec.newline
     ++ "• Pending Review: " ++ "156" ++ "  " ++ Spec.newline
     ++ "• Under Review: " ++ "43" ++ Spec.newline
     ++ "• Rejected Claims: " ++ "12" ++ Spec.newline) = true.
Proof.
  apply (report_shows_snapshot 234 156 43 12 [] Spec.below_one Spec.below_one
           Spec.below_one Spec.morning).
  vm_compute. reflexivity.
Defined.

(** X10. When the four counter texts are the decimal numerals of counts
    whose sum is below 2^53, [generateReportData] reads each count back
    exactly and [totalClaims] is their exact sum. *)
Theorem report_total_of_counters (a p r j : nat) (r1 r2 r3 : number) :
  Z.of_nat (a + p + r + j) < 2 ^ 53 ->
  let data :=
    FRAAtlasApp.generateReportData
      [digits (Z.of_nat a); digits (Z.of_nat p); digits (Z.of_nat r); digits (Z.of_nat j)]
      r1 r2 r3 in
  ReportData.approved data = of_Z (Z.of_nat a) /\
  ReportData.pending data = of_Z (Z.of_nat p) /\
  ReportData.review data = of_Z (Z.of_nat r) /\
  ReportData.rejected data = of_Z (Z.of_nat j) /\
  ReportData.totalClaims data = of_Z (Z.of_nat (a + p + r + j)).
Proof.
  intros Hsum data. unfold data, FRAAtlasApp.generateReportData.
  cbn [ReportData.approved ReportData.pending ReportData.review ReportData.rejected
       ReportData.totalClaims].
  rewrite (count_text_digits _ 0%nat a) by reflexivity.
  rewrite (count_text_digits _ 1%nat p) by reflexivity.
  rewrite (count_text_digits _ 2%nat r) by reflexivity.
  rewrite (count_text_digits _ 3%nat j) by reflexivity.
  repeat (split; [reflexivity|]).
  rewrite !add_of_Z by lia. f_equal. lia.
Qed.

Lemma report_total_of_counters_witness :
  let data := FRAAtlasApp.generateReportData ["234"; "156"; "43"; "12"]
                Spec.below_one Spec.below_one Spec.below_one in
  ReportData.approved data = of_Z 234 /\
  ReportData.pending data = of_Z 156 /\
  ReportData.review data = of_Z 43 /\
  ReportData.rejected data = of_Z 12 /\
  ReportData.totalClaims data = of_Z 445.
Proof.
  apply (report_total_of_counters 234 156 43 12 Spec.below_one Spec.below_one Spec.below_one).
  vm_compute. reflexivity.
Defined.

(** ** Start-up and export *)

Lemma updateFromData_cases (now : Date) (batch : list Feature) (s : State) :
  if Page.loads batch
  then exists totals line,
         Dashboard.updateFromData now batch s =
           (Normal tt,
            {| elements := Page.written (Dashboard.counts totals) now (List.length batch) s;
               console := (console s ++ [line])%list;
               loadedData := loadedData s |})
  else exists s',
         Dashboard.updateFromData now batch s = (Throw TypeError, s') /\
         console s' = console s /\ loadedData s' = loadedData s.
Proof.
  unfold Page.loads.
  destruct (forallb Spec.labelled batch) eqn:Hl; cbn [andb].
  - destruct (forEach_area batch Hl Dashboard.initial eq_refl) as [totals [Hrun Hnum]].
    cbn [Dashboard.initial Dashboard.totalArea Page.is_num andb] in Hnum.
    rewrite <- Hnum. unfold Dashboard.updateFromData, bind, lift. rewrite Hrun.
    destruct (Dashboard.totalArea totals); cbn [Page.is_num];
      try (eexists; split; [reflexivity | split; reflexivity]).
    exists totals. eexists. reflexivity.
  - exists s. unfold Dashboard.updateFromData, bind, lift.
    rewrite (forEach_unlabelled batch Hl). repeat split.
Qed.


Lemma before_T_date (date rest : string) :
  Page.lacks "T" date = true -> Lifecycle.before_T (date ++ String "T" rest) = date.
Proof.
  induction date as [|c date IH]; intros H; [reflexivity|].
  cbn [Page.lacks] in H. apply andb_true_iff in H as [Hc Hd].
  cbn [append Lifecycle.before_T].
  apply negb_true_iff in Hc. rewrite Hc. now rewrite (IH Hd).
Qed.

(** X12. An export whose clock reads [date] before the first T of its
    ISO text offers one new file named FRA_Atlas_Report_[date].txt, ends
    with the spinner hidden, shows one alert, and changes neither the page
    nor the error log. *)
Theorem export_names_file_by_date (now : Date) (date rest : string) (counts : list string)
    (r1 r2 r3 : number) (x : Lifecycle.Session) :
  Page.lacks "T" date = true ->
  let x' :=
    Lifecycle.exportReport_alert
      (Lifecycle.exportReport_download now (date ++ "T" ++ rest) counts r1 r2 r3
         (Lifecycle.exportReport x)) in
  map Lifecycle.download (Lifecycle.downloads x') =
    (map Lifecycle.download (Lifecycle.downloads x)
     ++ [("FRA_Atlas_Report_" ++ date ++ ".txt")%string])%list /\
  Lifecycle.customLoading x' = Dashboard.write "none" (Lifecycle.customLoading x) /\
  Lifecycle.alerts x' = (Lifecycle.alerts x ++ [Lifecycle.generated])%list /\
  Lifecycle.page x' = Lifecycle.page x /\
  Lifecycle.errors x' = Lifecycle.errors x.
Proof.
  intros H x'. unfold x', Lifecycle.exportReport_alert, Lifecycle.exportReport_download,
    Lifecycle.exportReport, Lifecycle.hideCustomLoading, Lifecycle.showCustomLoading.
  cbn [Lifecycle.page Lifecycle.customLoading Lifecycle.errors Lifecycle.alerts
       Lifecycle.downloads].
  rewrite map_app. cbn [map Lifecycle.download].
  change ("T" ++ rest) with (String "T" rest). rewrite (before_T_date date rest H).
  repeat split. now destruct (Lifecycle.customLoading x).
Qed.

Lemma export_names_file_by_date_witness :
  let x' :=
    Lifecycle.exportReport_alert
      (Lifecycle.exportReport_download Spec.morning ("2026-11-02" ++ "T" ++ "09:00:00.000Z")
         ["234"; "156"; "43"; "12"] Spec.below_one Spec.below_one Spec.below_one
         (Lifecycle.exportReport Lifecycle.idle)) in
  map Lifecycle.download (Lifecycle.downloads x') =
    (map Lifecycle.download (Lifecycle.downloads Lifecycle.idle)
     ++ ["FRA_Atlas_Report_2026-11-02.txt"])%list /\
  Lifecycle.customLoading x' = Dashboard.write "none" (Lifecycle.customLoading Lifecycle.idle) /\
  Lifecycle.alerts x' = (Lifecycle.alerts Lifecycle.idle ++ [Lifecycle.generated])%list /\
  Lifecycle.page x' = Lifecycle.page Lifecycle.idle /\
  Lifecycle.errors x' = Lifecycle.errors Lifecycle.idle.
Proof.
  apply (export_names_file_by_date Spec.morning "2026-11-02" "09:00:00.000Z"
           ["234"; "156"; "43"; "12"] Spec.below_one Spec.below_one Spec.below_one
           Lifecycle.idle).
  reflexivity.
Defined.
